(** * Container benchmark harness: a shallow embedding

    The development follows [include/bench.hpp] (repetition count, policy
    chain runner, [Bencher], [bench_types], [tag], [new_graph]) and the
    driver translation unit (type classification predicates, the value type
    catalog, the allocator wrappers, the benchmark families, [bench_all],
    [main]).

    Side effects (the clock, the report sink, construction and destruction of
    wrappers and containers, calls of policies) are rendered as a trace of
    events produced by a small state-and-output monad. *)

From Stdlib Require Import ZArith List String Ascii Bool Lia DecimalString.
Import ListNotations.

Local Open Scope string_scope.
Local Open Scope list_scope.
Local Open Scope Z_scope.

(** ** Target data model

    The sources note that the sizes "work for Clang and GCC"; the catalog's
    [static_assert]s (8-byte [Trivial<8>]) pin a 64-bit target.  [size_t] and
    [uintptr_t] are 8 bytes wide and 8-byte aligned; [size_t] arithmetic wraps
    modulo [2 ^ 64]. *)

Definition sizeof_size_t : Z := 8.
Definition sizeof_uintptr_t : Z := 8.
Definition alignof_size_t : Z := 8.

Definition SIZE_MODULUS : Z := 2 ^ (8 * sizeof_size_t).

(** Conversion of an integer value to [size_t]. *)
Definition to_size_t (z : Z) : Z := z mod SIZE_MODULUS.

(** [static const std::size_t REPEAT = 7;] *)
Definition REPEAT : Z := 7.

(** [std::to_string] on a [size_t]: the decimal digits. *)
Definition to_string (n : Z) : string :=
  NilZero.string_of_uint (N.to_uint (Z.to_N n)).

(** ** Value types

    A value type is described by what the harness and the classification
    predicates ask of it: [typeid(T).name()] (the mangled name GCC and Clang
    give), [sizeof(T)], [alignof(T)] and the [<type_traits>] answers. *)

Record ValueType : Type := mkValueType {
  type_id : string;
  sizeof : Z;
  alignof : Z;
  is_trivial : bool;
  is_copy_constructible : bool;
  is_copy_assignable : bool;
  is_move_constructible : bool;
  is_move_assignable : bool;
  is_nothrow_move_constructible : bool;
  is_nothrow_move_assignable : bool
}.

(** *** Type classification predicates *)

Definition is_trivial_of_size (T : ValueType) (size : Z) : bool :=
  is_trivial T && (sizeof T =? size).

Definition is_non_trivial_of_size (T : ValueType) (size : Z) : bool :=
  negb (is_trivial T)
  && (sizeof T =? size)
  && is_copy_constructible T
  && is_copy_assignable T
  && is_move_constructible T
  && is_move_assignable T.

Definition is_non_trivial_nothrow_movable (T : ValueType) : bool :=
  negb (is_trivial T)
  && is_nothrow_move_constructible T
  && is_nothrow_move_assignable T.

Definition is_non_trivial_non_nothrow_movable (T : ValueType) : bool :=
  negb (is_trivial T)
  && is_move_constructible T
  && is_move_assignable T
  && negb (is_nothrow_move_constructible T)
  && negb (is_nothrow_move_assignable T).

Definition is_non_trivial_non_movable (T : ValueType) : bool :=
  negb (is_trivial T)
  && is_copy_constructible T
  && is_copy_assignable T
  && negb (is_move_constructible T)
  && negb (is_move_assignable T).

Definition is_small (T : ValueType) : bool :=
  sizeof T <=? sizeof_size_t.

(** *** The tested types

    [Trivial<N>] holds a [size_t] and [N - 8] bytes of padding array; it has
    no special members of its own.  On the target, with [N] a multiple of 8
    and at least 8, its size is [N]. *)

Definition Trivial (N : Z) : ValueType :=
  {| type_id := ("7TrivialILi" ++ to_string N ++ "EE")%string;
     sizeof := N;
     alignof := alignof_size_t;
     is_trivial := true;
     is_copy_constructible := true;
     is_copy_assignable := true;
     is_move_constructible := true;
     is_move_assignable := true;
     is_nothrow_move_constructible := true;
     is_nothrow_move_assignable := true |}.

(** A [std::string] member (32 bytes with libstdc++) and a [size_t]; the
    destructor is declared, so no move operation is implicitly declared and
    an rvalue is copied: moving is possible but may throw. *)
Definition NonTrivialStringMovable : ValueType :=
  {| type_id := "23NonTrivialStringMovable";
     sizeof := 40;
     alignof := alignof_size_t;
     is_trivial := false;
     is_copy_constructible := true;
     is_copy_assignable := true;
     is_move_constructible := true;
     is_move_assignable := true;
     is_nothrow_move_constructible := false;
     is_nothrow_move_assignable := false |}.

(** Same members; both move operations are declared [noexcept]. *)
Definition NonTrivialStringMovableNoExcept : ValueType :=
  {| type_id := "31NonTrivialStringMovableNoExcept";
     sizeof := 40;
     alignof := alignof_size_t;
     is_trivial := false;
     is_copy_constructible := true;
     is_copy_assignable := true;
     is_move_constructible := true;
     is_move_assignable := true;
     is_nothrow_move_constructible := true;
     is_nothrow_move_assignable := true |}.

(** [size_t a = 0] makes the default constructor non-trivial; copying the
    byte array cannot throw. *)
Definition NonTrivialArray (N : Z) : ValueType :=
  {| type_id := ("15NonTrivialArrayILi" ++ to_string N ++ "EE")%string;
     sizeof := N;
     alignof := alignof_size_t;
     is_trivial := false;
     is_copy_constructible := true;
     is_copy_assignable := true;
     is_move_constructible := true;
     is_move_assignable := true;
     is_nothrow_move_constructible := true;
     is_nothrow_move_assignable := true |}.

Definition TrivialSmall : ValueType := Trivial 8.
Definition TrivialMedium : ValueType := Trivial 32.
Definition TrivialLarge : ValueType := Trivial 128.
Definition TrivialHuge : ValueType := Trivial 1024.
Definition TrivialMonster : ValueType := Trivial (4 * 1024).
Definition NonTrivialArrayMedium : ValueType := NonTrivialArray 32.

(** The type list [main] hands to [bench_all]. *)
Definition catalog : list ValueType :=
  [ TrivialSmall; TrivialMedium; TrivialLarge; TrivialHuge; TrivialMonster;
    NonTrivialStringMovable; NonTrivialStringMovableNoExcept;
    NonTrivialArray 32 ].

(** ** Display tags *)

(** [char] to [int]: plain [char] is signed on the target. *)
Definition int_of_char (c : ascii) : Z :=
  let n := Z.of_N (N_of_ascii c) in
  if n <? 128 then n else n - 256.

(** [std::isalnum] in the default "C" locale. *)
Definition isalnum_C (c : Z) : bool :=
  ((48 <=? c) && (c <=? 57))
  || ((65 <=? c) && (c <=? 90))
  || ((97 <=? c) && (c <=? 122)).

(** [std::replace_if] over the characters of a string. *)
Fixpoint replace_if (pred : ascii -> bool) (new_value : ascii) (s : string)
  : string :=
  match s with
  | EmptyString => EmptyString
  | String c rest =>
      String (if pred c then new_value else c) (replace_if pred new_value rest)
  end.

Section Tag.

(** The character classification of [<cctype>]; it depends on the locale,
    and nothing below depends on which one is installed. *)
Variable isalnum : Z -> bool.

Definition is_tag (c : Z) : bool :=
  isalnum c || (c =? int_of_char "_").

Definition tag (name : string) : string :=
  replace_if (fun c => negb (is_tag (int_of_char c))) "_" name.

End Tag.

(** ** Arena dimensions computed by [Bencher::functor]

    [NodeSize] is a [constexpr size_t]; [sizeof(NodeSize)] and
    [alignof(NodeSize)] are therefore the size and the alignment of
    [size_t], whatever the value of the constant. *)

Definition NodeSize (T : ValueType) : Z :=
  to_size_t (sizeof T + 2 * sizeof_uintptr_t).

Definition sizeof_NodeSize (T : ValueType) : Z := sizeof_size_t.
Definition alignof_NodeSize (T : ValueType) : Z := alignof_size_t.

Definition BufferSize (T : ValueType) (N : Z) : Z :=
  to_size_t (sizeof_NodeSize T * to_size_t (N + 1000)).

Definition Align (T : ValueType) : Z := alignof_NodeSize T.

(** ** Events and the effect monad *)

Inductive ContainerKind : Type := std_vector | std_list | std_deque.

Inductive WrapperKind : Type :=
  std_allocator_wrapper | linear_allocator_wrapper.

Inductive DurationUnit : Type := milliseconds | microseconds.

(** [wrapper.allocator]: the allocator object a wrapper exposes.  For
    [linear_allocator_wrapper] it is a view on the arena the wrapper owns. *)
Record Allocator : Type := mkAllocator {
  allocator_kind : WrapperKind;
  allocator_owner : nat
}.

Record Wrapper : Type := mkWrapper {
  wrapper_id : nat;
  allocator : Allocator
}.

Section Events.

Context {TestPolicy CreatePolicy : Type}.

(** What a run does, in program order. *)
Inductive Event : Type :=
| EvWrapperCtor (id : nat) (W : WrapperKind) (T : ValueType)
    (buffer_size align : Z)                 (* [auto wrapper = WrapperType();] *)
| EvMake (P : CreatePolicy) (C : ContainerKind) (T : ValueType) (N : Z)
    (a : Allocator)                         (* [CreatePolicy<ContainerType>::make] *)
| EvNow (t : Z)                             (* [Clock::now()] *)
| EvPolicy (P : TestPolicy) (size : Z)      (* [Test<Container>::run] *)
| EvAccumulate (elapsed : Z)                (* [duration += ...] *)
| EvContainerDtor (a : Allocator)           (* the container leaves scope *)
| EvWrapperDtor (id : nat)                  (* the wrapper leaves scope *)
| EvNewResult (serie group : string) (value : Z)     (* [graphs::new_result] *)
| EvClean (P : CreatePolicy)                (* [CreatePolicy<ContainerType>::clean] *)
| EvNewGraph (key title unit_name : string)  (* [graphs::new_graph] *)
| EvOutput.                                 (* [graphs::output] *)

End Events.

Arguments Event : clear implicits.

(** The mutable environment: how many times the clock was read and how many
    wrappers were built so far (the next wrapper takes that number). *)
Record World : Type := mkWorld {
  clock_reads : nat;
  wrappers_built : nat
}.

Section Monad.

Context {E : Type}.

Definition M (A : Type) : Type := World -> A * World * list E.

Definition ret {A : Type} (a : A) : M A := fun w => (a, w, []).

Definition bind {A B : Type} (m : M A) (k : A -> M B) : M B :=
  fun w =>
    let '(a, w1, tr1) := m w in
    let '(b, w2, tr2) := k a w1 in
    (b, w2, tr1 ++ tr2).

Definition emit (e : E) : M unit := fun w => (tt, w, [e]).

Definition result {A : Type} (m : M A) (w : World) : A := fst (fst (m w)).
Definition world_after {A : Type} (m : M A) (w : World) : World :=
  snd (fst (m w)).
Definition trace {A : Type} (m : M A) (w : World) : list E := snd (m w).

End Monad.

Arguments M : clear implicits.

Declare Scope bench_scope.
Delimit Scope bench_scope with bench.
Notation "x <- m ;; k" := (bind m (fun x => k))
  (at level 61, m at next level, right associativity) : bench_scope.
Notation "m ;; k" := (bind m (fun _ => k))
  (at level 61, right associativity) : bench_scope.
Local Open Scope bench_scope.

(** ** The harness of [bench.hpp] *)

(** [struct SizesType]: ten sizes. *)
Record SizesType : Type := mkSizes {
  i0 : Z; i1 : Z; i2 : Z; i3 : Z; i4 : Z;
  i5 : Z; i6 : Z; i7 : Z; i8 : Z; i9 : Z
}.

(** The fields in declaration order. *)
Definition sizes_list (Sizes : SizesType) : list Z :=
  [ i0 Sizes; i1 Sizes; i2 Sizes; i3 Sizes; i4 Sizes;
    i5 Sizes; i6 Sizes; i7 Sizes; i8 Sizes; i9 Sizes ].

(** [Clock] is [std::chrono::high_resolution_clock]; on the target its
    period is one nanosecond, and a time point is a number of nanoseconds. *)
Definition ticks_per (U : DurationUnit) : Z :=
  match U with
  | microseconds => 1000
  | milliseconds => 1000000
  end.

(** [std::chrono::duration_cast<DurationUnit>(d).count()]: the quotient
    truncated towards zero. *)
Definition duration_cast (U : DurationUnit) (d : Z) : Z :=
  Z.quot d (ticks_per U).

Section Harness.

(** The policies come from [policies.hpp]: a test policy is a procedure on a
    container taken by reference and a size; a creation policy builds a
    container from a size and an allocator.  [Container] is the state of a
    container object of any of the benchmarked kinds. *)
Context {Container TestPolicy CreatePolicy : Type}.
Variable policy_run : TestPolicy -> Container -> Z -> Container.
Variable make :
  CreatePolicy -> ContainerKind -> ValueType -> Z -> Allocator -> Container.

(** The time point returned by the [k]-th reading of the clock. *)
Variable clock : nat -> Z.

(** The character classification of the installed locale and the type-name
    formatter of [demangle.hpp]. *)
Variable isalnum : Z -> bool.
Variable demangle : string -> string.

Local Abbreviation Ev := (Event TestPolicy CreatePolicy).
Local Abbreviation Cmd := (M Ev).

(** [Test<Container>::run(container, size)]. *)
Definition Test_run (Test : TestPolicy) (container : Container) (size : Z)
  : Cmd Container :=
  fun w => (policy_run Test container size, w, [EvPolicy Test size]).

(** The variadic policy runner: the overload without policies ends the
    recursion; the other one runs the first policy and recurses on the
    rest.  The container is passed by reference: the state it is left in
    is handed on. *)
Fixpoint run (tests : list TestPolicy) (container : Container) (size : Z)
  : Cmd Container :=
  match tests with
  | [] => ret container
  | Test :: Rest =>
      container' <- Test_run Test container size ;;
      run Rest container' size
  end.

(** [Clock::now()]. *)
Definition Clock_now : Cmd Z :=
  fun w =>
    let t := clock (clock_reads w) in
    (t, mkWorld (S (clock_reads w)) (wrappers_built w), [EvNow t]).

Section Bencher.

Variable C : ContainerKind.
Variable ValueT : ValueType.
Variable AllocatorWrapper : WrapperKind.
Variable Unit : DurationUnit.
Variable Create : CreatePolicy.
Variable Sizes : SizesType.
Variable Tests : list TestPolicy.

(** [WrapperType()]: a wrapper of its own, numbered by order of
    construction, built with the buffer size and alignment computed for
    the size [N]. *)
Definition WrapperType (N : Z) : Cmd Wrapper :=
  fun w =>
    let id := wrappers_built w in
    (mkWrapper id (mkAllocator AllocatorWrapper id),
     mkWorld (clock_reads w) (S id),
     [EvWrapperCtor id AllocatorWrapper ValueT (BufferSize ValueT N)
        (Align ValueT)]).

(** [CreatePolicy<ContainerType>::make(N, wrapper.allocator)]. *)
Definition CreatePolicy_make (N : Z) (a : Allocator) : Cmd Container :=
  fun w => (make Create C ValueT N a, w, [EvMake Create C ValueT N a]).

(** One pass through the body of the [for] loop, from the accumulated
    [duration] to the new one.  The locals die at the closing brace in
    the reverse order of their construction: the container, then the
    wrapper. *)
Definition repetition (N : Z) (duration : Z) : Cmd Z :=
  wrapper <- WrapperType N ;;
  container <- CreatePolicy_make N (allocator wrapper) ;;
  t0 <- Clock_now ;;
  container' <- run Tests container N ;;
  t1 <- Clock_now ;;
  let elapsed := duration_cast Unit (t1 - t0) in
  emit (EvAccumulate elapsed) ;;
  emit (EvContainerDtor (allocator wrapper)) ;;
  emit (EvWrapperDtor (wrapper_id wrapper)) ;;
  ret (to_size_t (duration + elapsed)).

(** [for(std::size_t i=0; i < REPEAT; ++i)], with [remaining] passes still
    to do. *)
Fixpoint repeat_loop (remaining : nat) (N : Z) (duration : Z) : Cmd Z :=
  match remaining with
  | O => ret duration
  | S k =>
      duration' <- repetition N duration ;;
      repeat_loop k N duration'
  end.

(** [functor<N>::operator()(type)]. *)
Definition functor (N : Z) (type : string) : Cmd unit :=
  duration <- repeat_loop (Z.to_nat REPEAT) N 0 ;;
  emit (EvNewResult type (to_string N) (duration / REPEAT)) ;;
  emit (EvClean Create).

(** [Bencher::bench(type)]. *)
Definition bench (type : string) : Cmd unit :=
  functor (i0 Sizes) type ;;
  functor (i1 Sizes) type ;;
  functor (i2 Sizes) type ;;
  functor (i3 Sizes) type ;;
  functor (i4 Sizes) type ;;
  functor (i5 Sizes) type ;;
  functor (i6 Sizes) type ;;
  functor (i7 Sizes) type ;;
  functor (i8 Sizes) type ;;
  functor (i9 Sizes) type.

End Bencher.

(** [bench_types<Benchmark, Types...>()]. *)
Fixpoint bench_types (Benchmark : ValueType -> Cmd unit)
  (Types : list ValueType) : Cmd unit :=
  match Types with
  | [] => ret tt
  | T :: Rest => Benchmark T ;; bench_types Benchmark Rest
  end.

(** [new_graph<T>(testName, unit)]: the title is the test name, a dash and
    the readable name of the type; the key is the tag of the title. *)
Definition new_graph (T : ValueType) (testName unit_name : string)
  : Cmd unit :=
  let title := ((testName ++ " - ") ++ demangle (type_id T))%string in
  emit (EvNewGraph (tag isalnum title) title unit_name).

End Harness.

(** ** The benchmark catalog of the driver *)

(** The creation and test policies the families name. *)
Inductive CreateName : Type := Empty | FilledRandom | SmartFilled.

Inductive TestName : Type :=
| FillBack | ReserveSize | FillBackInserter | EmplaceBack
| FillFront | EmplaceFront | Find | Insert | Erase | Sort
| SmartDelete | RandomSortedInsert.

(** The [constexpr SizesType Sizes] of each family. *)
Definition Sizes_fill_back : SizesType :=
  mkSizes 100000 200000 300000 400000 500000 600000 700000 800000 900000
    1000000.
Definition Sizes_emplace_back : SizesType :=
  mkSizes 100000 200000 300000 400000 500000 600000 700000 800000 900000
    1000000.
Definition Sizes_fill_front : SizesType :=
  mkSizes 10000 20000 30000 40000 50000 60000 70000 80000 90000 100000.
Definition Sizes_emplace_front : SizesType :=
  mkSizes 10000 20000 30000 40000 50000 60000 70000 80000 90000 100000.
Definition Sizes_linear_search : SizesType :=
  mkSizes 1000 2000 3000 4000 5000 6000 7000 8000 9000 10000.
Definition Sizes_random_insert : SizesType :=
  mkSizes 10000 20000 30000 40000 50000 60000 70000 80000 90000 100000.
Definition Sizes_random_remove : SizesType :=
  mkSizes 10000 20000 30000 40000 50000 60000 70000 80000 90000 100000.
Definition Sizes_sort : SizesType :=
  mkSizes 100000 200000 300000 400000 500000 600000 700000 800000 900000
    1000000.
Definition Sizes_destruction : SizesType :=
  mkSizes 100000 200000 300000 400000 500000 600000 700000 800000 900000
    1000000.
Definition Sizes_number_crunching : SizesType :=
  mkSizes 10000 20000 30000 40000 50000 60000 70000 80000 90000 100000.

(** Every size list a family declares. *)
Definition catalog_sizes : list SizesType :=
  [ Sizes_fill_back; Sizes_emplace_back; Sizes_fill_front;
    Sizes_emplace_front; Sizes_linear_search; Sizes_random_insert;
    Sizes_random_remove; Sizes_sort; Sizes_destruction;
    Sizes_number_crunching ].

Section Catalog.

Context {Container : Type}.
Variable policy_run : TestName -> Container -> Z -> Container.
Variable make :
  CreateName -> ContainerKind -> ValueType -> Z -> Allocator -> Container.
Variable clock : nat -> Z.
Variable isalnum : Z -> bool.
Variable demangle : string -> string.

Local Abbreviation Cmd := (M (Event TestName CreateName)).
Local Abbreviation Bencher := (bench policy_run make clock).
Local Abbreviation new_graph := (new_graph isalnum demangle).

Definition bench_fill_back (T : ValueType) : Cmd unit :=
  new_graph T "fill_back" "us" ;;
  let Sizes := Sizes_fill_back in
  Bencher std_vector T std_allocator_wrapper microseconds Empty Sizes
    [FillBack] "vector" ;;
  Bencher std_list T std_allocator_wrapper microseconds Empty Sizes
    [FillBack] "list" ;;
  Bencher std_deque T std_allocator_wrapper microseconds Empty Sizes
    [FillBack] "deque" ;;
  Bencher std_vector T std_allocator_wrapper microseconds Empty Sizes
    [ReserveSize; FillBack] "vector_reserve" ;;
  Bencher std_list T linear_allocator_wrapper microseconds Empty Sizes
    [FillBack] "list_linear" ;;
  Bencher std_vector T std_allocator_wrapper microseconds Empty Sizes
    [FillBackInserter] "vector_inserter" ;;
  Bencher std_list T std_allocator_wrapper microseconds Empty Sizes
    [FillBackInserter] "list_inserter" ;;
  Bencher std_deque T std_allocator_wrapper microseconds Empty Sizes
    [FillBackInserter] "deque_inserter" ;;
  Bencher std_list T linear_allocator_wrapper microseconds Empty Sizes
    [FillBackInserter] "list_inserter_linear".

Definition bench_emplace_back (T : ValueType) : Cmd unit :=
  new_graph T "emplace_back" "us" ;;
  let Sizes := Sizes_emplace_back in
  Bencher std_vector T std_allocator_wrapper microseconds Empty Sizes
    [EmplaceBack] "vector" ;;
  Bencher std_list T std_allocator_wrapper microseconds Empty Sizes
    [EmplaceBack] "list" ;;
  Bencher std_deque T std_allocator_wrapper microseconds Empty Sizes
    [EmplaceBack] "deque" ;;
  Bencher std_list T linear_allocator_wrapper microseconds Empty Sizes
    [EmplaceBack] "list_linear".

Definition bench_fill_front (T : ValueType) : Cmd unit :=
  new_graph T "fill_front" "us" ;;
  let Sizes := Sizes_fill_front in
  (if is_small T
   then Bencher std_vector T std_allocator_wrapper microseconds Empty Sizes
          [FillFront] "vector"
   else ret tt) ;;
  Bencher std_list T std_allocator_wrapper microseconds Empty Sizes
    [FillFront] "list" ;;
  Bencher std_deque T std_allocator_wrapper microseconds Empty Sizes
    [FillFront] "deque" ;;
  Bencher std_list T linear_allocator_wrapper microseconds Empty Sizes
    [FillFront] "list_linear".

Definition bench_emplace_front (T : ValueType) : Cmd unit :=
  new_graph T "emplace_front" "us" ;;
  let Sizes := Sizes_emplace_front in
  (if is_small T
   then Bencher std_vector T std_allocator_wrapper microseconds Empty Sizes
          [EmplaceFront] "vector"
   else ret tt) ;;
  Bencher std_list T std_allocator_wrapper microseconds Empty Sizes
    [EmplaceFront] "list" ;;
  Bencher std_deque T std_allocator_wrapper microseconds Empty Sizes
    [EmplaceFront] "deque" ;;
  Bencher std_list T linear_allocator_wrapper microseconds Empty Sizes
    [EmplaceFront] "list_linear".

Definition bench_linear_search (T : ValueType) : Cmd unit :=
  new_graph T "linear_search" "us" ;;
  let Sizes := Sizes_linear_search in
  Bencher std_vector T std_allocator_wrapper microseconds FilledRandom Sizes
    [Find] "vector" ;;
  Bencher std_list T std_allocator_wrapper microseconds FilledRandom Sizes
    [Find] "list" ;;
  Bencher std_deque T std_allocator_wrapper microseconds FilledRandom Sizes
    [Find] "deque" ;;
  Bencher std_list T linear_allocator_wrapper microseconds FilledRandom Sizes
    [Find] "list_linear".

Definition bench_random_insert (T : ValueType) : Cmd unit :=
  new_graph T "random_insert" "ms" ;;
  let Sizes := Sizes_random_insert in
  Bencher std_vector T std_allocator_wrapper microseconds FilledRandom Sizes
    [Insert] "vector" ;;
  Bencher std_list T std_allocator_wrapper microseconds FilledRandom Sizes
    [Insert] "list" ;;
  Bencher std_deque T std_allocator_wrapper microseconds FilledRandom Sizes
    [Insert] "deque" ;;
  Bencher std_list T linear_allocator_wrapper microseconds FilledRandom Sizes
    [Insert] "list_linear".

Definition bench_random_remove (T : ValueType) : Cmd unit :=
  new_graph T "random_remove" "ms" ;;
  let Sizes := Sizes_random_remove in
  Bencher std_vector T std_allocator_wrapper microseconds FilledRandom Sizes
    [Erase] "vector" ;;
  Bencher std_list T std_allocator_wrapper microseconds FilledRandom Sizes
    [Erase] "list" ;;
  Bencher std_deque T std_allocator_wrapper microseconds FilledRandom Sizes
    [Erase] "deque" ;;
  Bencher std_list T linear_allocator_wrapper microseconds FilledRandom Sizes
    [Erase] "list_linear".

Definition bench_sort (T : ValueType) : Cmd unit :=
  new_graph T "sort" "ms" ;;
  let Sizes := Sizes_sort in
  Bencher std_vector T std_allocator_wrapper microseconds FilledRandom Sizes
    [Sort] "vector" ;;
  Bencher std_list T std_allocator_wrapper microseconds FilledRandom Sizes
    [Sort] "list" ;;
  Bencher std_deque T std_allocator_wrapper microseconds FilledRandom Sizes
    [Sort] "deque" ;;
  Bencher std_list T linear_allocator_wrapper microseconds FilledRandom Sizes
    [Sort] "list_linear".

Definition bench_destruction (T : ValueType) : Cmd unit :=
  new_graph T "destruction" "us" ;;
  let Sizes := Sizes_destruction in
  Bencher std_vector T std_allocator_wrapper microseconds SmartFilled Sizes
    [SmartDelete] "vector" ;;
  Bencher std_list T std_allocator_wrapper microseconds SmartFilled Sizes
    [SmartDelete] "list" ;;
  Bencher std_deque T std_allocator_wrapper microseconds SmartFilled Sizes
    [SmartDelete] "deque" ;;
  Bencher std_list T linear_allocator_wrapper microseconds SmartFilled Sizes
    [SmartDelete] "list_linear".

Definition bench_number_crunching (T : ValueType) : Cmd unit :=
  new_graph T "number_crunching" "ms" ;;
  let Sizes := Sizes_number_crunching in
  Bencher std_vector T std_allocator_wrapper microseconds Empty Sizes
    [RandomSortedInsert] "vector" ;;
  Bencher std_list T std_allocator_wrapper microseconds Empty Sizes
    [RandomSortedInsert] "list" ;;
  Bencher std_deque T std_allocator_wrapper microseconds Empty Sizes
    [RandomSortedInsert] "deque" ;;
  Bencher std_list T linear_allocator_wrapper microseconds Empty Sizes
    [RandomSortedInsert] "list_linear".

(** [bench_all<Types...>()]: nine families over the given types, then the
    number-crunching family over its own two types. *)
Definition bench_all (Types : list ValueType) : Cmd unit :=
  bench_types bench_fill_back Types ;;
  bench_types bench_emplace_back Types ;;
  bench_types bench_fill_front Types ;;
  bench_types bench_emplace_front Types ;;
  bench_types bench_linear_search Types ;;
  bench_types bench_random_insert Types ;;
  bench_types bench_random_remove Types ;;
  bench_types bench_sort Types ;;
  bench_types bench_destruction Types ;;
  bench_types bench_number_crunching [TrivialSmall; TrivialMedium].

(** [main]. *)
Definition main : Cmd Z :=
  bench_all catalog ;;
  emit EvOutput ;;
  ret 0.

End Catalog.

(** ** Reading a trace *)


Section Observations.

Context {TestPolicy CreatePolicy : Type}.

Local Abbreviation Ev := (Event TestPolicy CreatePolicy).

(** The data points handed to the report sink: serie, group, value. *)
Definition result_of (e : Ev) : list (string * string * Z) :=
  match e with
  | EvNewResult serie group value => [(serie, group, value)]
  | _ => []
  end.

Definition results_of (tr : list Ev) : list (string * string * Z) :=
  flat_map result_of tr.

(** The elapsed counts added to [duration]. *)
Definition elapsed_of (e : Ev) : list Z :=
  match e with
  | EvAccumulate d => [d]
  | _ => []
  end.

Definition accumulated (tr : list Ev) : list Z := flat_map elapsed_of tr.

(** The cleanup calls. *)
Definition clean_of (e : Ev) : list CreatePolicy :=
  match e with
  | EvClean P => [P]
  | _ => []
  end.

Definition cleans_of (tr : list Ev) : list CreatePolicy :=
  flat_map clean_of tr.

(** The graphs registered: key, title and unit. *)
Definition graph_of (e : Ev) : list (string * string * string) :=
  match e with
  | EvNewGraph key title unit_name => [(key, title, unit_name)]
  | _ => []
  end.

Definition graphs_of (tr : list Ev) : list (string * string * string) :=
  flat_map graph_of tr.


(** The policies called, with the size each received. *)
Definition call_of (e : Ev) : list (TestPolicy * Z) :=
  match e with
  | EvPolicy P size => [(P, size)]
  | _ => []
  end.

Definition calls_of (tr : list Ev) : list (TestPolicy * Z) :=
  flat_map call_of tr.

(** The wrappers built, by number. *)
Definition built_of (e : Ev) : list nat :=
  match e with
  | EvWrapperCtor id _ _ _ _ => [id]
  | _ => []
  end.

Definition wrappers_of (tr : list Ev) : list nat := flat_map built_of tr.

Definition is_accumulate (e : Ev) : bool :=
  match e with EvAccumulate _ => true | _ => false end.

Definition is_wrapper_dtor (e : Ev) : bool :=
  match e with EvWrapperDtor _ => true | _ => false end.

End Observations.

(** What a call [new_graph<T>(testName, unit)] registers. *)
Definition graph_entry (isalnum : Z -> bool) (demangle : string -> string)
  (testName : string) (T : ValueType) (unit_name : string)
  : string * string * string :=
  let title := ((testName ++ " - ") ++ demangle (type_id T))%string in
  (tag isalnum title, title, unit_name).

(** Position of the first element that satisfies [p]. *)
Fixpoint index_of {A : Type} (p : A -> bool) (l : list A) : option nat :=
  match l with
  | [] => None
  | x :: rest =>
      if p x then Some O else option_map S (index_of p rest)
  end.

Definition sum (l : list Z) : Z := fold_right Z.add 0 l.

(** Strictly increasing from left to right. *)
Fixpoint increasing (l : list Z) : bool :=
  match l with
  | [] => true
  | a :: rest =>
      match rest with
      | [] => true
      | b :: _ => (a <? b) && increasing rest
      end
  end.

(** ** The events of one repetition, as the loop body lays them out

    A wrapper numbered [id] is built and a container is made from its
    allocator; the clock is read (reading number [k]); the policies run;
    the clock is read again; the elapsed count is added to the total; the
    container and then the wrapper are destroyed. *)

Section Layout.

Context {TestPolicy CreatePolicy : Type}.
Variable clock : nat -> Z.
Variable C : ContainerKind.
Variable ValueT : ValueType.
Variable AllocatorWrapper : WrapperKind.
Variable Unit : DurationUnit.
Variable Create : CreatePolicy.
Variable Tests : list TestPolicy.

Definition elapsed_at (k : nat) : Z :=
  duration_cast Unit (clock (S k) - clock k).

Definition repetition_events (N : Z) (id k : nat)
  : list (Event TestPolicy CreatePolicy) :=
  [ EvWrapperCtor id AllocatorWrapper ValueT (BufferSize ValueT N)
      (Align ValueT);
    EvMake Create C ValueT N (mkAllocator AllocatorWrapper id);
    EvNow (clock k) ]
  ++ map (fun P => EvPolicy P N) Tests
  ++ [ EvNow (clock (S k));
       EvAccumulate (elapsed_at k);
       EvContainerDtor (mkAllocator AllocatorWrapper id);
       EvWrapperDtor id ].

(** [n] repetitions in a row, the first with wrapper [id] and clock
    reading [k]. *)
Fixpoint repetitions_events (n : nat) (N : Z) (id k : nat)
  : list (Event TestPolicy CreatePolicy) :=
  match n with
  | O => []
  | S n' =>
      repetition_events N id k ++ repetitions_events n' N (S id) (S (S k))
  end.

(** The accumulated [duration] once the loop of a functor call that starts
    in [w] has ended: the elapsed counts of its [REPEAT] repetitions, added
    up in [size_t]. *)
Definition total_duration (N : Z) (w : World) : Z :=
  to_size_t
    (sum (accumulated
            (repetitions_events (Z.to_nat REPEAT) N (wrappers_built w)
               (clock_reads w)))).

End Layout.

(** ** A small instance of the policy parameters, for evaluation *)

Module Sample.

Definition Container : Type := list Z.

Definition policy_run (P : TestName) (c : Container) (n : Z) : Container :=
  match P with
  | FillBack | FillBackInserter | EmplaceBack => c ++ [n]
  | FillFront | EmplaceFront => n :: c
  | _ => c
  end.

Definition make (P : CreateName) (C : ContainerKind) (T : ValueType) (N : Z)
  (a : Allocator) : Container :=
  match P with
  | Empty => []
  | _ => [N]
  end.

(** The [k]-th reading of the clock, in nanoseconds. *)
Definition clock (k : nat) : Z := 1000 * 2 ^ Z.of_nat k.

Definition start : World := mkWorld 0 0.

Definition functor3 : M (Event TestName CreateName) unit :=
  functor policy_run make clock std_list TrivialSmall
    linear_allocator_wrapper microseconds Empty [FillBack] 3 "list_linear".

End Sample.

(** ** Further readings of a trace *)

Section MoreObservations.

Context {TestPolicy CreatePolicy : Type}.

Local Abbreviation Ev := (Event TestPolicy CreatePolicy).

(** The serie names of the data points, in order. *)
Definition serie_of (e : Ev) : list string :=
  match e with
  | EvNewResult serie _ _ => [serie]
  | _ => []
  end.

Definition series_of (tr : list Ev) : list string := flat_map serie_of tr.

(** The sizes the containers were made for, in order. *)
Definition made_size_of (e : Ev) : list Z :=
  match e with
  | EvMake _ _ _ N _ => [N]
  | _ => []
  end.

Definition made_sizes (tr : list Ev) : list Z := flat_map made_size_of tr.

(** The calls of [graphs::output]. *)
Definition output_of (e : Ev) : list unit :=
  match e with
  | EvOutput => [tt]
  | _ => []
  end.

Definition outputs_of (tr : list Ev) : list unit := flat_map output_of tr.

(** The events a [Bencher] produces: everything but the registration of a
    graph and the rendering. *)
Definition is_harness_event (e : Ev) : bool :=
  match e with
  | EvNewGraph _ _ _ | EvOutput => false
  | _ => true
  end.

End MoreObservations.

(** *** Lifetimes

    A trace is read against the wrapper that is alive, if any, and whether a
    container made from its allocator is alive.  A step is refused when it
    builds a wrapper while another one is alive, makes a container from an
    allocator that is not the live wrapper's, reads the clock, runs a policy
    or accumulates outside the life of a container, destroys what is not
    alive, destroys a wrapper before its container, or calls the report
    sink or the cleanup while a wrapper is alive. *)

Record Scope : Type := mkScope {
  live_wrapper : option nat;
  live_container : bool
}.

Definition idle : Scope := mkScope None false.

Section Lifetimes.

Context {TestPolicy CreatePolicy : Type}.

Definition scope_step (s : Scope) (e : Event TestPolicy CreatePolicy)
  : option Scope :=
  match e with
  | EvWrapperCtor id _ _ _ _ =>
      match live_wrapper s with
      | None => if live_container s then None else Some (mkScope (Some id) false)
      | Some _ => None
      end
  | EvMake _ _ _ _ a =>
      match live_wrapper s with
      | Some id =>
          if Nat.eqb id (allocator_owner a) && negb (live_container s)
          then Some (mkScope (Some id) true)
          else None
      | None => None
      end
  | EvNow _ | EvPolicy _ _ | EvAccumulate _ =>
      if live_container s then Some s else None
  | EvContainerDtor a =>
      match live_wrapper s with
      | Some id =>
          if Nat.eqb id (allocator_owner a) && live_container s
          then Some (mkScope (Some id) false)
          else None
      | None => None
      end
  | EvWrapperDtor id =>
      match live_wrapper s with
      | Some id' =>
          if Nat.eqb id' id && negb (live_container s)
          then Some idle
          else None
      | None => None
      end
  | EvNewResult _ _ _ | EvClean _ | EvNewGraph _ _ _ | EvOutput =>
      match live_wrapper s with
      | None => if live_container s then None else Some s
      | Some _ => None
      end
  end.

Fixpoint scope_run (s : Scope) (tr : list (Event TestPolicy CreatePolicy))
  : option Scope :=
  match tr with
  | [] => Some s
  | e :: rest =>
      match scope_step s e with
      | Some s' => scope_run s' rest
      | None => None
      end
  end.

End Lifetimes.

(** The nanoseconds that pass between the two clock readings of the
    [REPEAT] repetitions of a functor call whose first reading is number
    [k], added up. *)
Definition elapsed_ticks (clock : nat -> Z) (k : nat) : Z :=
  sum (map (fun i => clock (S (k + 2 * i)%nat) - clock (k + 2 * i)%nat)
         (seq 0 (Z.to_nat REPEAT))).

(** Every character of the string passes [is_tag]. *)
Definition all_tag (isalnum : Z -> bool) (s : string) : bool :=
  forallb (fun c => is_tag isalnum (int_of_char c)) (list_ascii_of_string s).

(** The shape of a family's trace: first the registration of its graph
    under the family's test name and unit, then events of the harness
    only. *)
Definition starts_with_graph (isalnum : Z -> bool)
  (demangle : string -> string) (testName unit_name : string)
  (Benchmark : ValueType -> M (Event TestName CreateName) unit) : Prop :=
  forall (T : ValueType) (w : World),
    trace (Benchmark T) w
    = EvNewGraph
        (tag isalnum ((testName ++ " - ") ++ demangle (type_id T))%string)
        ((testName ++ " - ") ++ demangle (type_id T))%string unit_name
      :: tl (trace (Benchmark T) w)
    /\ forallb is_harness_event (tl (trace (Benchmark T) w)) = true.

(** ** Objects of the tested types *)

(** [Trivial<N>]: the member [a] and the padding bytes [b]. *)
Module TrivialObject.

Record Object : Type := mkObject { a : Z; b : list Z }.

(** [bool operator<(const Trivial &other) const]. *)
Definition lt (this other : Object) : bool := a this <? a other.

End TrivialObject.

(** [NonTrivialStringMovableNoExcept]: the members [data] and [a].  Objects
    live in a store and are named by their address, since the move
    assignment changes both of its operands. *)
Module NoExceptObject.

Record Object : Type := mkObject { data : string; a : Z }.

Definition Store : Type := nat -> Object.

Definition update (st : Store) (p : nat) (o : Object) : Store :=
  fun q => if Nat.eqb q p then o else st q.

(** [std::swap(data, other.data)]. *)
Definition swap_data (this other : nat) (st : Store) : Store :=
  let mine := data (st this) in
  let theirs := data (st other) in
  let st1 := update st this (mkObject theirs (a (st this))) in
  update st1 other (mkObject mine (a (st1 other))).

(** [std::swap(a, other.a)]. *)
Definition swap_a (this other : nat) (st : Store) : Store :=
  let mine := a (st this) in
  let theirs := a (st other) in
  let st1 := update st this (mkObject (data (st this)) theirs) in
  update st1 other (mkObject (data (st1 other)) mine).

(** [operator=(NonTrivialStringMovableNoExcept &&other) noexcept]. *)
Definition move_assign (this other : nat) (st : Store) : Store :=
  swap_a this other (swap_data this other st).

(** [bool operator<(const NonTrivialStringMovableNoExcept &other) const]. *)
Definition lt (this other : Object) : bool := a this <? a other.

End NoExceptObject.

(** ** A clock that steps back, for evaluation *)

Module SteppedBack.

(** The second reading is one microsecond earlier than the first; after
    that the clock stands still. *)
Definition clock (k : nat) : Z :=
  match k with
  | 1%nat => -1000
  | _ => 0
  end.

Definition functor3 : M (Event TestName CreateName) unit :=
  functor Sample.policy_run Sample.make clock std_list TrivialSmall
    linear_allocator_wrapper microseconds Empty [FillBack] 3 "list_linear".

End SteppedBack.

(** * Properties *)

(** ** Sequencing *)

Section MonadFacts.

Context {E : Type}.

Lemma trace_bind {A B : Type} (m : M E A) (k : A -> M E B) (w : World) :
  trace (bind m k) w
  = trace m w ++ trace (k (result m w)) (world_after m w).
Proof.
  unfold trace, result, world_after, bind.
  destruct (m w) as [[a w1] tr1]; simpl.
  destruct (k a w1) as [[b w2] tr2]; reflexivity.
Qed.

Lemma result_bind {A B : Type} (m : M E A) (k : A -> M E B) (w : World) :
  result (bind m k) w = result (k (result m w)) (world_after m w).
Proof.
  unfold result, world_after, bind.
  destruct (m w) as [[a w1] tr1]; simpl.
  destruct (k a w1) as [[b w2] tr2]; reflexivity.
Qed.

Lemma world_after_bind {A B : Type} (m : M E A) (k : A -> M E B)
  (w : World) :
  world_after (bind m k) w = world_after (k (result m w)) (world_after m w).
Proof.
  unfold result, world_after, bind.
  destruct (m w) as [[a w1] tr1]; simpl.
  destruct (k a w1) as [[b w2] tr2]; reflexivity.
Qed.

Lemma trace_ret {A : Type} (a : A) (w : World) : trace (E:=E) (ret a) w = [].
Proof. reflexivity. Qed.

Lemma trace_emit (e : E) (w : World) : trace (emit e) w = [e].
Proof. reflexivity. Qed.

Lemma world_after_emit (e : E) (w : World) : world_after (emit e) w = w.
Proof. reflexivity. Qed.

End MonadFacts.

Lemma to_size_t_range (z : Z) : 0 <= to_size_t z < SIZE_MODULUS.
Proof.
  unfold to_size_t. apply Z.mod_pos_bound. reflexivity.
Qed.

Lemma to_size_t_small (z : Z) : 0 <= z < SIZE_MODULUS -> to_size_t z = z.
Proof.
  intros H. unfold to_size_t. apply Z.mod_small. exact H.
Qed.

Lemma to_size_t_add_l (a b : Z) :
  to_size_t (to_size_t a + b) = to_size_t (a + b).
Proof.
  unfold to_size_t. apply Zplus_mod_idemp_l.
Qed.

(** ** The policy chain runner *)

Section RunnerFacts.

Context {Container TestPolicy CreatePolicy : Type}.
Variable policy_run : TestPolicy -> Container -> Z -> Container.

Local Abbreviation run' :=
  (run (CreatePolicy:=CreatePolicy) policy_run).

Lemma run_result (tests : list TestPolicy) (c : Container) (n : Z)
  (w : World) :
  result (run' tests c n) w
  = fold_left (fun c' P => policy_run P c' n) tests c.
Proof.
  revert c w. induction tests as [|P rest IH]; intros c w.
  - reflexivity.
  - simpl run. rewrite result_bind. rewrite IH. reflexivity.
Qed.

Lemma run_trace (tests : list TestPolicy) (c : Container) (n : Z)
  (w : World) :
  trace (run' tests c n) w = map (fun P => EvPolicy P n) tests.
Proof.
  revert c w. induction tests as [|P rest IH]; intros c w.
  - reflexivity.
  - simpl run. rewrite trace_bind. rewrite IH. reflexivity.
Qed.

Lemma run_world (tests : list TestPolicy) (c : Container) (n : Z)
  (w : World) :
  world_after (run' tests c n) w = w.
Proof.
  revert c w. induction tests as [|P rest IH]; intros c w.
  - reflexivity.
  - simpl run. rewrite world_after_bind. rewrite IH. reflexivity.
Qed.

(** C5: [run<P1, ..., Pk>(c, n)] calls [P1::run], ..., [Pk::run] in list
    order, each with the size [n] and each on the one container, which a
    policy receives as the policies before it left it; the calls are all
    the runner does (its trace holds nothing else and the environment is
    untouched), so the final container is the one the policies produce in
    turn. *)
Theorem run_applies_policies_in_order (tests : list TestPolicy)
  (c : Container) (n : Z) (w : World) :
  trace (run' tests c n) w = map (fun P => EvPolicy P n) tests
  /\ calls_of (trace (run' tests c n) w) = map (fun P => (P, n)) tests
  /\ result (run' tests c n) w
     = fold_left (fun c' P => policy_run P c' n) tests c
  /\ (forall (before : list TestPolicy) (P : TestPolicy)
        (after : list TestPolicy),
        result (run' (before ++ P :: after) c n) w
        = result
            (run' after (policy_run P (result (run' before c n) w) n) n) w)
  /\ world_after (run' tests c n) w = w.
Proof.
  rewrite run_trace, run_world.
  split; [reflexivity|]. split; [|split; [apply run_result|split]].
  - unfold calls_of. induction tests as [|P rest IH]; simpl.
    + reflexivity.
    + rewrite IH. reflexivity.
  - intros before P after. rewrite !run_result, fold_left_app. reflexivity.
  - reflexivity.
Qed.

(** C10: the runner without policies returns the container it was given,
    does nothing and leaves the environment alone. *)
Theorem run_empty_is_identity (c : Container) (n : Z) (w : World) :
  result (run' [] c n) w = c
  /\ trace (run' [] c n) w = []
  /\ world_after (run' [] c n) w = w.
Proof.
  repeat split.
Qed.

End RunnerFacts.

(** ** Traces as observed *)

Section ObservationFacts.

Context {TestPolicy CreatePolicy : Type}.

Local Abbreviation Ev := (Event TestPolicy CreatePolicy).

Lemma results_of_app (a b : list Ev) :
  results_of (a ++ b) = results_of a ++ results_of b.
Proof. apply flat_map_app. Qed.

Lemma accumulated_app (a b : list Ev) :
  accumulated (a ++ b) = accumulated a ++ accumulated b.
Proof. apply flat_map_app. Qed.

Lemma cleans_of_app (a b : list Ev) :
  cleans_of (a ++ b) = cleans_of a ++ cleans_of b.
Proof. apply flat_map_app. Qed.

Lemma graphs_of_app (a b : list Ev) :
  graphs_of (a ++ b) = graphs_of a ++ graphs_of b.
Proof. apply flat_map_app. Qed.

Lemma wrappers_of_app (a b : list Ev) :
  wrappers_of (a ++ b) = wrappers_of a ++ wrappers_of b.
Proof. apply flat_map_app. Qed.

Lemma results_of_policies (N : Z) (tests : list TestPolicy) :
  results_of (map (fun P => EvPolicy (CreatePolicy:=CreatePolicy) P N) tests)
  = [].
Proof. induction tests; simpl; auto. Qed.

Lemma accumulated_policies (N : Z) (tests : list TestPolicy) :
  accumulated (map (fun P => EvPolicy (CreatePolicy:=CreatePolicy) P N) tests)
  = [].
Proof. induction tests; simpl; auto. Qed.

Lemma cleans_of_policies (N : Z) (tests : list TestPolicy) :
  cleans_of (map (fun P => EvPolicy (CreatePolicy:=CreatePolicy) P N) tests)
  = [].
Proof. induction tests; simpl; auto. Qed.

Lemma graphs_of_policies (N : Z) (tests : list TestPolicy) :
  graphs_of (map (fun P => EvPolicy (CreatePolicy:=CreatePolicy) P N) tests)
  = [].
Proof. induction tests; simpl; auto. Qed.

Lemma wrappers_of_policies (N : Z) (tests : list TestPolicy) :
  wrappers_of (map (fun P => EvPolicy (CreatePolicy:=CreatePolicy) P N) tests)
  = [].
Proof. induction tests; simpl; auto. Qed.

End ObservationFacts.

Lemma sum_app (a b : list Z) : sum (a ++ b) = sum a + sum b.
Proof.
  induction a as [|x a IH]; simpl.
  - reflexivity.
  - unfold sum in *. simpl. rewrite IH. ring.
Qed.

(** ** The layout of repetitions *)

Section LayoutFacts.

Context {TestPolicy CreatePolicy : Type}.
Variable clock : nat -> Z.
Variable C : ContainerKind.
Variable ValueT : ValueType.
Variable AllocatorWrapper : WrapperKind.
Variable Unit : DurationUnit.
Variable Create : CreatePolicy.
Variable Tests : list TestPolicy.

Local Abbreviation rep_events :=
  (repetition_events clock C ValueT AllocatorWrapper Unit Create Tests).
Local Abbreviation reps_events :=
  (repetitions_events clock C ValueT AllocatorWrapper Unit Create Tests).

Lemma repetitions_events_S (n : nat) (N : Z) (id k : nat) :
  reps_events (S n) N id k
  = rep_events N id k ++ reps_events n N (S id) (S (S k)).
Proof. reflexivity. Qed.

Lemma accumulated_repetition (N : Z) (id k : nat) :
  accumulated (rep_events N id k) = [elapsed_at clock Unit k].
Proof.
  unfold repetition_events.
  rewrite !accumulated_app, accumulated_policies. reflexivity.
Qed.

Lemma results_of_repetition (N : Z) (id k : nat) :
  results_of (rep_events N id k) = [].
Proof.
  unfold repetition_events.
  rewrite !results_of_app, results_of_policies. reflexivity.
Qed.

Lemma cleans_of_repetition (N : Z) (id k : nat) :
  cleans_of (rep_events N id k) = [].
Proof.
  unfold repetition_events.
  rewrite !cleans_of_app, cleans_of_policies. reflexivity.
Qed.

Lemma graphs_of_repetition (N : Z) (id k : nat) :
  graphs_of (rep_events N id k) = [].
Proof.
  unfold repetition_events.
  rewrite !graphs_of_app, graphs_of_policies. reflexivity.
Qed.

Lemma wrappers_of_repetition (N : Z) (id k : nat) :
  wrappers_of (rep_events N id k) = [id].
Proof.
  unfold repetition_events.
  rewrite !wrappers_of_app, wrappers_of_policies. reflexivity.
Qed.

Lemma accumulated_repetitions (n : nat) (N : Z) (id k : nat) :
  accumulated (reps_events n N id k)
  = map (fun i => elapsed_at clock Unit (k + 2 * i)) (seq 0 n).
Proof.
  revert id k. induction n as [|n IH]; intros id k.
  - reflexivity.
  - rewrite repetitions_events_S.
    rewrite accumulated_app, accumulated_repetition, IH.
    simpl. rewrite Nat.add_0_r. f_equal.
    rewrite <- seq_shift, map_map.
    apply map_ext. intros i. f_equal. lia.
Qed.

Lemma results_of_repetitions (n : nat) (N : Z) (id k : nat) :
  results_of (reps_events n N id k) = [].
Proof.
  revert id k. induction n as [|n IH]; intros id k.
  - reflexivity.
  - rewrite repetitions_events_S.
    rewrite results_of_app, results_of_repetition, IH. reflexivity.
Qed.

Lemma cleans_of_repetitions (n : nat) (N : Z) (id k : nat) :
  cleans_of (reps_events n N id k) = [].
Proof.
  revert id k. induction n as [|n IH]; intros id k.
  - reflexivity.
  - rewrite repetitions_events_S.
    rewrite cleans_of_app, cleans_of_repetition, IH. reflexivity.
Qed.

Lemma graphs_of_repetitions (n : nat) (N : Z) (id k : nat) :
  graphs_of (reps_events n N id k) = [].
Proof.
  revert id k. induction n as [|n IH]; intros id k.
  - reflexivity.
  - rewrite repetitions_events_S.
    rewrite graphs_of_app, graphs_of_repetition, IH. reflexivity.
Qed.

Lemma wrappers_of_repetitions (n : nat) (N : Z) (id k : nat) :
  wrappers_of (reps_events n N id k) = seq id n.
Proof.
  revert id k. induction n as [|n IH]; intros id k.
  - reflexivity.
  - rewrite repetitions_events_S.
    rewrite wrappers_of_app, wrappers_of_repetition, IH. reflexivity.
Qed.

End LayoutFacts.

(** ** One [Bencher] instance *)

Section BencherFacts.

Context {Container TestPolicy CreatePolicy : Type}.
Variable policy_run : TestPolicy -> Container -> Z -> Container.
Variable make :
  CreatePolicy -> ContainerKind -> ValueType -> Z -> Allocator -> Container.
Variable clock : nat -> Z.
Variable C : ContainerKind.
Variable ValueT : ValueType.
Variable AllocatorWrapper : WrapperKind.
Variable Unit : DurationUnit.
Variable Create : CreatePolicy.
Variable Sizes : SizesType.
Variable Tests : list TestPolicy.

Local Abbreviation rep_events :=
  (repetition_events clock C ValueT AllocatorWrapper Unit Create Tests).
Local Abbreviation reps_events :=
  (repetitions_events clock C ValueT AllocatorWrapper Unit Create Tests).
Local Abbreviation repetition' :=
  (repetition policy_run make clock C ValueT AllocatorWrapper Unit Create
     Tests).
Local Abbreviation repeat_loop' :=
  (repeat_loop policy_run make clock C ValueT AllocatorWrapper Unit Create
     Tests).
Local Abbreviation functor' :=
  (functor policy_run make clock C ValueT AllocatorWrapper Unit Create Tests).
Local Abbreviation bench' :=
  (bench policy_run make clock C ValueT AllocatorWrapper Unit Create Sizes
     Tests).

Local Abbreviation total' :=
  (total_duration clock C ValueT AllocatorWrapper Unit Create Tests).

Ltac step_binds :=
  repeat (rewrite trace_bind || rewrite world_after_bind
          || rewrite result_bind);
  repeat (rewrite run_trace || rewrite run_world).

Lemma repetition_trace (N duration : Z) (w : World) :
  trace (repetition' N duration) w
  = rep_events N (wrappers_built w) (clock_reads w).
Proof.
  unfold repetition. step_binds. reflexivity.
Qed.

Lemma repetition_world (N duration : Z) (w : World) :
  world_after (repetition' N duration) w
  = mkWorld (S (S (clock_reads w))) (S (wrappers_built w)).
Proof.
  unfold repetition. step_binds. reflexivity.
Qed.

Lemma repetition_result (N duration : Z) (w : World) :
  result (repetition' N duration) w
  = to_size_t (duration + elapsed_at clock Unit (clock_reads w)).
Proof.
  unfold repetition. step_binds. reflexivity.
Qed.

Lemma repeat_loop_trace (n : nat) (N duration : Z) (w : World) :
  trace (repeat_loop' n N duration) w
  = reps_events n N (wrappers_built w) (clock_reads w).
Proof.
  revert duration w. induction n as [|n IH]; intros duration w.
  - reflexivity.
  - cbn [repeat_loop]. rewrite trace_bind, repetition_trace, IH.
    rewrite repetition_world. reflexivity.
Qed.

Lemma repeat_loop_world (n : nat) (N duration : Z) (w : World) :
  world_after (repeat_loop' n N duration) w
  = mkWorld (2 * n + clock_reads w) (n + wrappers_built w).
Proof.
  revert duration w. induction n as [|n IH]; intros duration w.
  - destruct w; reflexivity.
  - cbn [repeat_loop]. rewrite world_after_bind, IH, repetition_world.
    cbn [clock_reads wrappers_built]. f_equal; lia.
Qed.

Lemma repeat_loop_result (n : nat) (N duration : Z) (w : World) :
  result (repeat_loop' n N duration) w
  = match n with
    | O => duration
    | S _ =>
        to_size_t
          (duration
           + sum (accumulated
                    (reps_events n N (wrappers_built w) (clock_reads w))))
    end.
Proof.
  revert duration w. induction n as [|n IH]; intros duration w.
  - reflexivity.
  - cbn [repeat_loop]. rewrite result_bind, IH.
    rewrite repetition_world, repetition_result.
    cbn [clock_reads wrappers_built].
    rewrite repetitions_events_S, accumulated_app, accumulated_repetition.
    rewrite sum_app.
    destruct n as [|n].
    + cbn. f_equal. lia.
    + rewrite to_size_t_add_l. f_equal. cbn [sum fold_right]. lia.
Qed.

Lemma functor_trace (N : Z) (type : string) (w : World) :
  trace (functor' N type) w
  = reps_events (Z.to_nat REPEAT) N (wrappers_built w) (clock_reads w)
    ++ [ EvNewResult type (to_string N) (total' N w / REPEAT);
         EvClean Create ].
Proof.
  unfold functor, total_duration.
  rewrite trace_bind, repeat_loop_trace, repeat_loop_result.
  rewrite trace_bind, trace_emit, trace_emit.
  reflexivity.
Qed.

Lemma functor_world (N : Z) (type : string) (w : World) :
  world_after (functor' N type) w
  = mkWorld (14 + clock_reads w) (7 + wrappers_built w).
Proof.
  unfold functor.
  rewrite world_after_bind, repeat_loop_world.
  reflexivity.
Qed.

Lemma repetitions_as_blocks (n : nat) (N : Z) (id k s : nat) :
  flat_map (fun i => rep_events N (id + i) (k + 2 * i)) (seq s n)
  = reps_events n N (id + s) (k + 2 * s).
Proof.
  revert s. induction n as [|n IH]; intros s.
  - reflexivity.
  - cbn [seq flat_map]. rewrite IH, repetitions_events_S.
    replace (id + S s)%nat with (S (id + s)) by lia.
    replace (k + 2 * S s)%nat with (S (S (k + 2 * s))) by lia.
    reflexivity.
Qed.

Lemma functor_results (N : Z) (type : string) (w : World) :
  results_of (trace (functor' N type) w)
  = [(type, to_string N, total' N w / REPEAT)].
Proof.
  rewrite functor_trace, results_of_app, results_of_repetitions.
  reflexivity.
Qed.

Lemma functor_accumulated (N : Z) (type : string) (w : World) :
  accumulated (trace (functor' N type) w)
  = accumulated
      (reps_events (Z.to_nat REPEAT) N (wrappers_built w) (clock_reads w)).
Proof.
  rewrite functor_trace, accumulated_app. cbn [accumulated flat_map].
  cbn. apply app_nil_r.
Qed.

Lemma functor_cleans (N : Z) (type : string) (w : World) :
  cleans_of (trace (functor' N type) w) = [Create].
Proof.
  rewrite functor_trace, cleans_of_app, cleans_of_repetitions.
  reflexivity.
Qed.

Lemma total_duration_nonneg (N : Z) (w : World) :
  0 <= total' N w / REPEAT.
Proof.
  apply Z.div_pos.
  - apply to_size_t_range.
  - reflexivity.
Qed.

Ltac step_bench :=
  unfold bench;
  repeat (rewrite trace_bind || rewrite world_after_bind
          || rewrite functor_world).

Lemma bench_results (type : string) (w : World) :
  exists values : list Z,
    List.length values = 10%nat
    /\ Forall (fun v => 0 <= v) values
    /\ results_of (trace (bench' type) w)
       = combine (map (fun n => (type, to_string n)) (sizes_list Sizes))
           values.
Proof.
  step_bench.
  rewrite !results_of_app, !functor_results.
  eexists [_; _; _; _; _; _; _; _; _; _].
  split; [reflexivity|]. split; [|reflexivity].
  repeat constructor; apply total_duration_nonneg.
Qed.

Lemma bench_cleans (type : string) (w : World) :
  cleans_of (trace (bench' type) w) = repeat Create 10.
Proof.
  step_bench.
  rewrite !cleans_of_app, !functor_cleans. reflexivity.
Qed.

(** C2 (as amended): for every size, the cleanup step of the creation policy
    is called exactly once by the functor, as its last action: after the
    [REPEAT] timed repetitions, none of which calls it, and after the mean
    was handed to the report sink.  A whole [bench] therefore calls it ten
    times, once per size. *)
Theorem cleanup_once_per_size (N : Z) (type : string) (w : World) :
  trace (functor' N type) w
  = reps_events (Z.to_nat REPEAT) N (wrappers_built w) (clock_reads w)
    ++ [ EvNewResult type (to_string N) (total' N w / REPEAT);
         EvClean Create ]
  /\ cleans_of
       (reps_events (Z.to_nat REPEAT) N (wrappers_built w) (clock_reads w))
     = []
  /\ List.length
       (accumulated
          (reps_events (Z.to_nat REPEAT) N (wrappers_built w)
             (clock_reads w)))
     = 7%nat
  /\ cleans_of (trace (functor' N type) w) = [Create]
  /\ cleans_of (trace (bench' type) w) = repeat Create 10.
Proof.
  split; [apply functor_trace|].
  split; [apply cleans_of_repetitions|].
  split; [rewrite accumulated_repetitions, length_map, length_seq;
          reflexivity|].
  split; [apply functor_cleans|apply bench_cleans].
Qed.

(** C3 (as amended): the functor accumulates exactly [REPEAT = 7] elapsed
    counts and hands the report sink one value: their sum as accumulated
    in [size_t], that is reduced modulo [2 ^ 64], divided by 7 with the
    division of [size_t].  The counts are what the clock gives and need not
    be non-negative.  When they are non-negative and their sum is
    representable in [size_t], the value is the sum divided by 7 rounded
    down to a whole count: [7 v <= sum < 7 v + 7]. *)
Theorem reported_value_is_truncated_mean (N : Z) (type : string)
  (w : World) :
  REPEAT = 7
  /\ List.length (accumulated (trace (functor' N type) w)) = 7%nat
  /\ results_of (trace (functor' N type) w)
     = [(type, to_string N,
         to_size_t (sum (accumulated (trace (functor' N type) w)))
         / REPEAT)]
  /\ (forallb (fun d => 0 <=? d) (accumulated (trace (functor' N type) w))
      && (sum (accumulated (trace (functor' N type) w)) <? SIZE_MODULUS)
      = true ->
      to_size_t (sum (accumulated (trace (functor' N type) w))) / REPEAT
      = sum (accumulated (trace (functor' N type) w)) / REPEAT
      /\ REPEAT * (sum (accumulated (trace (functor' N type) w)) / REPEAT)
         <= sum (accumulated (trace (functor' N type) w))
         < REPEAT * (sum (accumulated (trace (functor' N type) w)) / REPEAT)
           + REPEAT).
Proof.
  rewrite functor_results.
  rewrite functor_accumulated.
  split; [reflexivity|].
  split; [rewrite accumulated_repetitions, length_map, length_seq;
          reflexivity|].
  split; [reflexivity|].
  intros H. apply andb_prop in H. destruct H as [Hnonneg Hfits].
  apply Z.ltb_lt in Hfits.
  assert (Hsum :
    0 <= sum (accumulated
                (reps_events (Z.to_nat REPEAT) N (wrappers_built w)
                   (clock_reads w)))).
  { revert Hnonneg.
    generalize (accumulated
                  (reps_events (Z.to_nat REPEAT) N (wrappers_built w)
                     (clock_reads w))).
    intros l. induction l as [|d l IH]; cbn [forallb sum fold_right].
    - intros _. lia.
    - intros H. apply andb_prop in H. destruct H as [Hd Hl].
      apply Z.leb_le in Hd. specialize (IH Hl). unfold sum in IH. lia. }
  split.
  - rewrite to_size_t_small by lia. reflexivity.
  - unfold REPEAT.
    pose proof (Z.mul_div_le
      (sum (accumulated
              (reps_events (Z.to_nat 7) N (wrappers_built w)
                 (clock_reads w)))) 7 eq_refl).
    pose proof (Z.mul_succ_div_gt
      (sum (accumulated
              (reps_events (Z.to_nat 7) N (wrappers_built w)
                 (clock_reads w)))) 7 eq_refl).
    lia.
Qed.

(** C4 (as amended): the trace of a functor call is seven blocks followed by
    the report and the cleanup.  Block [i] builds a wrapper of its own
    (numbered [id + i]) and makes a container from that wrapper's allocator,
    both before the first clock reading; between the two clock readings
    only the policies run; the elapsed count is added to the total; then,
    at the end of the block, the container and after it the wrapper are
    destroyed, before the next block starts.  The wrappers of the seven
    blocks are pairwise distinct. *)
Theorem repetition_blocks (N : Z) (type : string) (w : World) :
  trace (functor' N type) w
  = flat_map
      (fun i =>
         [ EvWrapperCtor (wrappers_built w + i) AllocatorWrapper ValueT
             (BufferSize ValueT N) (Align ValueT);
           EvMake Create C ValueT N
             (mkAllocator AllocatorWrapper (wrappers_built w + i));
           EvNow (clock (clock_reads w + 2 * i)) ]
         ++ map (fun P => EvPolicy P N) Tests
         ++ [ EvNow (clock (S (clock_reads w + 2 * i)));
              EvAccumulate
                (duration_cast Unit
                   (clock (S (clock_reads w + 2 * i))
                    - clock (clock_reads w + 2 * i)));
              EvContainerDtor
                (mkAllocator AllocatorWrapper (wrappers_built w + i));
              EvWrapperDtor (wrappers_built w + i) ])
      (seq 0 (Z.to_nat REPEAT))
    ++ [ EvNewResult type (to_string N) (total' N w / REPEAT);
         EvClean Create ]
  /\ wrappers_of (trace (functor' N type) w)
     = seq (wrappers_built w) (Z.to_nat REPEAT)
  /\ NoDup (wrappers_of (trace (functor' N type) w)).
Proof.
  assert (Hw : wrappers_of (trace (functor' N type) w)
               = seq (wrappers_built w) (Z.to_nat REPEAT)).
  { rewrite functor_trace, wrappers_of_app, wrappers_of_repetitions.
    apply app_nil_r. }
  split; [|split].
  - rewrite functor_trace. f_equal.
    pose proof (repetitions_as_blocks (Z.to_nat REPEAT) N (wrappers_built w)
                  (clock_reads w) 0) as H.
    rewrite !Nat.add_0_r in H. rewrite <- H. reflexivity.
  - exact Hw.
  - rewrite Hw. apply seq_NoDup.
Qed.

Lemma functor_graphs (N : Z) (type : string) (w : World) :
  graphs_of (trace (functor' N type) w) = [].
Proof.
  rewrite functor_trace, graphs_of_app, graphs_of_repetitions.
  reflexivity.
Qed.

Lemma bench_graphs (type : string) (w : World) :
  graphs_of (trace (bench' type) w) = [].
Proof.
  step_bench.
  rewrite !graphs_of_app, !functor_graphs. reflexivity.
Qed.

End BencherFacts.

(** C6: whatever the container, value type, wrapper, unit, policies and
    sizes, [Bencher::bench] hands the report sink exactly ten data points,
    one per size of the list and in the order of the list, each labelled
    with the serie name and the decimal size and each with a non-negative
    value; and each of the ten size lists the families declare has ten
    entries in strictly increasing order. *)
Theorem bench_reports_ten_points {Container TestPolicy CreatePolicy : Type}
  (policy_run : TestPolicy -> Container -> Z -> Container)
  (make :
     CreatePolicy -> ContainerKind -> ValueType -> Z -> Allocator
     -> Container)
  (clock : nat -> Z) (C : ContainerKind) (T : ValueType) (W : WrapperKind)
  (U : DurationUnit) (Create : CreatePolicy) (Sizes : SizesType)
  (Tests : list TestPolicy) (type : string) (w : World) :
  (exists values : list Z,
     List.length values = 10%nat
     /\ Forall (fun v => 0 <= v) values
     /\ results_of
          (trace (bench policy_run make clock C T W U Create Sizes Tests type)
             w)
        = combine (map (fun n => (type, to_string n)) (sizes_list Sizes))
            values)
  /\ List.length catalog_sizes = 10%nat
  /\ forallb
       (fun S =>
          (List.length (sizes_list S) =? 10)%nat
          && increasing (sizes_list S))
       catalog_sizes
     = true.
Proof.
  split; [apply bench_results|].
  split; reflexivity.
Qed.

(** ** The arena dimensions *)

Lemma BufferSize_eq (T : ValueType) (N : Z) :
  BufferSize T N = to_size_t (sizeof_size_t * (N + 1000)).
Proof.
  unfold BufferSize, sizeof_NodeSize, to_size_t.
  apply Zmult_mod_idemp_r.
Qed.

(** C1: the buffer size handed to the wrapper is the size of [size_t]
    times [N + 1000] for every value type, and the alignment is that of
    [size_t]; the node size computed on the line before is not used.  For
    [TrivialSmall] and [N = 100000] the wrapper gets 808000 bytes, where
    the node size (24 bytes) times [N + 1000] is 2424000. *)
Theorem buffer_size_ignores_node_size :
  (forall (T : ValueType) (N : Z),
     BufferSize T N = to_size_t (sizeof_size_t * (N + 1000))
     /\ Align T = alignof_size_t)
  /\ NodeSize TrivialSmall = 24
  /\ to_size_t (NodeSize TrivialSmall * (100000 + 1000)) = 2424000
  /\ BufferSize TrivialSmall 100000 = 808000
  /\ hd_error
       (trace
          (functor Sample.policy_run Sample.make Sample.clock std_list
             TrivialSmall linear_allocator_wrapper microseconds Empty
             [FillBack] 100000 "list_linear")
          Sample.start)
     = Some
         (EvWrapperCtor 0 linear_allocator_wrapper TrivialSmall 808000 8).
Proof.
  split.
  - intros T N. split; [apply BufferSize_eq|reflexivity].
  - repeat split; vm_compute; reflexivity.
Qed.

(** ** Type classification *)

(** The catalog's [static_assert]s. *)
Lemma catalog_static_asserts :
  is_trivial_of_size TrivialSmall 8 = true
  /\ is_trivial_of_size TrivialMedium 32 = true
  /\ is_trivial_of_size TrivialLarge 128 = true
  /\ is_trivial_of_size TrivialHuge 1024 = true
  /\ is_trivial_of_size TrivialMonster (4 * 1024) = true
  /\ is_non_trivial_nothrow_movable NonTrivialStringMovableNoExcept = true
  /\ is_non_trivial_non_nothrow_movable NonTrivialStringMovable = true
  /\ is_non_trivial_of_size NonTrivialArrayMedium 32 = true.
Proof.
  repeat split.
Qed.

(** C8: the predicate holds exactly for the types that are not trivial,
    that can be move-constructed and move-assigned, and for which neither
    of these two operations is guaranteed not to throw. *)
Theorem non_trivial_non_nothrow_movable_iff (T : ValueType) :
  is_non_trivial_non_nothrow_movable T = true
  <-> is_trivial T = false
      /\ (is_move_constructible T = true /\ is_move_assignable T = true)
      /\ (is_nothrow_move_constructible T = false
          /\ is_nothrow_move_assignable T = false).
Proof.
  unfold is_non_trivial_non_nothrow_movable.
  destruct (is_trivial T), (is_move_constructible T), (is_move_assignable T),
    (is_nothrow_move_constructible T), (is_nothrow_move_assignable T);
    cbn; intuition congruence.
Qed.

(** The two movability classes exclude each other. *)
Lemma nothrow_and_non_nothrow_disjoint (T : ValueType) :
  is_non_trivial_nothrow_movable T && is_non_trivial_non_nothrow_movable T
  = false.
Proof.
  unfold is_non_trivial_nothrow_movable, is_non_trivial_non_nothrow_movable.
  destruct (is_trivial T), (is_move_constructible T), (is_move_assignable T),
    (is_nothrow_move_constructible T), (is_nothrow_move_assignable T);
    reflexivity.
Qed.

(** ** Tags *)

Lemma int_of_char_eqb (c d : ascii) :
  (int_of_char c =? int_of_char d) = Ascii.eqb c d.
Proof.
  destruct (Ascii.eqb_spec c d) as [->|Hneq].
  - apply Z.eqb_refl.
  - apply Z.eqb_neq. intros H. apply Hneq.
    rewrite <- (ascii_N_embedding c), <- (ascii_N_embedding d).
    f_equal.
    pose proof (N_ascii_bounded c). pose proof (N_ascii_bounded d).
    unfold int_of_char in H.
    destruct (Z.ltb_spec (Z.of_N (N_of_ascii c)) 128),
      (Z.ltb_spec (Z.of_N (N_of_ascii d)) 128); lia.
Qed.

Lemma replace_if_length (pred : ascii -> bool) (nv : ascii) (s : string) :
  String.length (replace_if pred nv s) = String.length s.
Proof.
  induction s as [|c s IH]; simpl; congruence.
Qed.

Lemma replace_if_get (pred : ascii -> bool) (nv : ascii) (s : string)
  (i : nat) :
  String.get i (replace_if pred nv s)
  = option_map (fun c => if pred c then nv else c) (String.get i s).
Proof.
  revert i. induction s as [|c s IH]; intros i; simpl.
  - reflexivity.
  - destruct i as [|i]; [reflexivity|apply IH].
Qed.

Lemma replace_if_stable (pred : ascii -> bool) (nv : ascii) (s : string) :
  pred nv = false ->
  replace_if pred nv (replace_if pred nv s) = replace_if pred nv s.
Proof.
  intros Hnv. induction s as [|c s IH]; simpl.
  - reflexivity.
  - rewrite IH. f_equal.
    destruct (pred c) eqn:Hc; [rewrite Hnv|rewrite Hc]; reflexivity.
Qed.

(** C9: [tag] keeps the length of the string, keeps every character that is
    alphanumeric or an underscore, puts an underscore in the place of every
    other one, and applying it a second time changes nothing.  This holds
    for any character classification [isalnum]. *)
Theorem tag_replaces_and_is_idempotent (isalnum : Z -> bool) (s : string) :
  String.length (tag isalnum s) = String.length s
  /\ (forall i : nat,
        String.get i (tag isalnum s)
        = option_map
            (fun c =>
               if isalnum (int_of_char c) || Ascii.eqb c "_"
               then c else "_"%char)
            (String.get i s))
  /\ tag isalnum (tag isalnum s) = tag isalnum s.
Proof.
  unfold tag. split; [apply replace_if_length|]. split.
  - intros i. rewrite replace_if_get.
    destruct (String.get i s) as [c|]; [|reflexivity].
    cbn [option_map]. unfold is_tag. rewrite int_of_char_eqb.
    destruct (isalnum (int_of_char c) || Ascii.eqb c "_"); reflexivity.
  - apply replace_if_stable.
    unfold is_tag. rewrite Z.eqb_refl, orb_true_r. reflexivity.
Qed.

Lemma tag_of_title :
  tag isalnum_C "fill_back - Trivial<8>" = "fill_back___Trivial_8_".
Proof. reflexivity. Qed.

(** ** The driver *)

Section CatalogFacts.

Context {Container : Type}.
Variable policy_run : TestName -> Container -> Z -> Container.
Variable make :
  CreateName -> ContainerKind -> ValueType -> Z -> Allocator -> Container.
Variable clock : nat -> Z.
Variable isalnum : Z -> bool.
Variable demangle : string -> string.

Local Abbreviation Cmd := (M (Event TestName CreateName)).
Local Abbreviation entry := (graph_entry isalnum demangle).

Lemma bench_types_graphs (Benchmark : ValueType -> Cmd unit)
  (g : ValueType -> list (string * string * string)) :
  (forall T w, graphs_of (trace (Benchmark T) w) = g T) ->
  forall Types w,
    graphs_of (trace (bench_types Benchmark Types) w) = flat_map g Types.
Proof.
  intros Hg Types. induction Types as [|T Rest IH]; intros w.
  - reflexivity.
  - cbn [bench_types flat_map].
    rewrite trace_bind, graphs_of_app, Hg, IH. reflexivity.
Qed.

Ltac family_graphs :=
  cbv zeta;
  repeat rewrite trace_bind;
  rewrite !graphs_of_app;
  repeat rewrite bench_graphs;
  reflexivity.

Lemma bench_fill_back_graphs (T : ValueType) (w : World) :
  graphs_of (trace (bench_fill_back policy_run make clock isalnum demangle T) w)
  = [entry "fill_back" T "us"].
Proof. unfold bench_fill_back. family_graphs. Qed.

Lemma bench_emplace_back_graphs (T : ValueType) (w : World) :
  graphs_of (trace (bench_emplace_back policy_run make clock isalnum demangle T) w)
  = [entry "emplace_back" T "us"].
Proof. unfold bench_emplace_back. family_graphs. Qed.

Lemma bench_fill_front_graphs (T : ValueType) (w : World) :
  graphs_of (trace (bench_fill_front policy_run make clock isalnum demangle T) w)
  = [entry "fill_front" T "us"].
Proof.
  unfold bench_fill_front. destruct (is_small T); family_graphs.
Qed.

Lemma bench_emplace_front_graphs (T : ValueType) (w : World) :
  graphs_of (trace (bench_emplace_front policy_run make clock isalnum demangle T) w)
  = [entry "emplace_front" T "us"].
Proof.
  unfold bench_emplace_front. destruct (is_small T); family_graphs.
Qed.

Lemma bench_linear_search_graphs (T : ValueType) (w : World) :
  graphs_of (trace (bench_linear_search policy_run make clock isalnum demangle T) w)
  = [entry "linear_search" T "us"].
Proof. unfold bench_linear_search. family_graphs. Qed.

Lemma bench_random_insert_graphs (T : ValueType) (w : World) :
  graphs_of (trace (bench_random_insert policy_run make clock isalnum demangle T) w)
  = [entry "random_insert" T "ms"].
Proof. unfold bench_random_insert. family_graphs. Qed.

Lemma bench_random_remove_graphs (T : ValueType) (w : World) :
  graphs_of (trace (bench_random_remove policy_run make clock isalnum demangle T) w)
  = [entry "random_remove" T "ms"].
Proof. unfold bench_random_remove. family_graphs. Qed.

Lemma bench_sort_graphs (T : ValueType) (w : World) :
  graphs_of (trace (bench_sort policy_run make clock isalnum demangle T) w)
  = [entry "sort" T "ms"].
Proof. unfold bench_sort. family_graphs. Qed.

Lemma bench_destruction_graphs (T : ValueType) (w : World) :
  graphs_of (trace (bench_destruction policy_run make clock isalnum demangle T) w)
  = [entry "destruction" T "us"].
Proof. unfold bench_destruction. family_graphs. Qed.

Lemma bench_number_crunching_graphs (T : ValueType) (w : World) :
  graphs_of (trace (bench_number_crunching policy_run make clock isalnum demangle T) w)
  = [entry "number_crunching" T "ms"].
Proof. unfold bench_number_crunching. family_graphs. Qed.

(** The graphs a run of [bench_all] registers, family by family. *)
Lemma bench_all_graphs (Types : list ValueType) (w : World) :
  graphs_of (trace (bench_all policy_run make clock isalnum demangle Types) w)
  = map (fun T => entry "fill_back" T "us") Types
    ++ map (fun T => entry "emplace_back" T "us") Types
    ++ map (fun T => entry "fill_front" T "us") Types
    ++ map (fun T => entry "emplace_front" T "us") Types
    ++ map (fun T => entry "linear_search" T "us") Types
    ++ map (fun T => entry "random_insert" T "ms") Types
    ++ map (fun T => entry "random_remove" T "ms") Types
    ++ map (fun T => entry "sort" T "ms") Types
    ++ map (fun T => entry "destruction" T "us") Types
    ++ [ entry "number_crunching" TrivialSmall "ms";
         entry "number_crunching" TrivialMedium "ms" ].
Proof.
  unfold bench_all.
  repeat rewrite trace_bind.
  rewrite !graphs_of_app.
  rewrite (bench_types_graphs _ _ bench_fill_back_graphs).
  rewrite (bench_types_graphs _ _ bench_emplace_back_graphs).
  rewrite (bench_types_graphs _ _ bench_fill_front_graphs).
  rewrite (bench_types_graphs _ _ bench_emplace_front_graphs).
  rewrite (bench_types_graphs _ _ bench_linear_search_graphs).
  rewrite (bench_types_graphs _ _ bench_random_insert_graphs).
  rewrite (bench_types_graphs _ _ bench_random_remove_graphs).
  rewrite (bench_types_graphs _ _ bench_sort_graphs).
  rewrite (bench_types_graphs _ _ bench_destruction_graphs).
  rewrite (bench_types_graphs _ _ bench_number_crunching_graphs).
  assert (Hone : forall f : ValueType -> string * string * string,
            flat_map (fun T => [f T]) Types = map f Types).
  { intros f. induction Types as [|T Rest IH]; simpl; congruence. }
  rewrite !(Hone (fun T => entry _ T _)).
  reflexivity.
Qed.


End CatalogFacts.

(** ** Evaluation on the sample instance *)

(** The sample functor call measures 1, 4, 16, ..., 4096 microseconds. *)
Lemma sample_functor_measures :
  accumulated (trace Sample.functor3 Sample.start)
  = [1; 4; 16; 64; 256; 1024; 4096]
  /\ results_of (trace Sample.functor3 Sample.start)
     = [("list_linear", "3", 780)]
  /\ cleans_of (trace Sample.functor3 Sample.start) = [Empty].
Proof.
  repeat split.
Qed.

(** C2, as stated, fails: the sample functor call times seven trials and
    calls the cleanup step once, not seven times. *)
Lemma cleanup_is_not_per_trial :
  List.length (accumulated (trace Sample.functor3 Sample.start)) = 7%nat
  /\ List.length (cleans_of (trace Sample.functor3 Sample.start)) = 1%nat
  /\ List.length (cleans_of (trace Sample.functor3 Sample.start))
     <> Z.to_nat REPEAT.
Proof.
  repeat split. vm_compute. discriminate.
Qed.

(** C4, as stated, fails: in the sample functor call the first elapsed count
    is added to the total at position 5 of the trace and the first wrapper
    is destroyed at position 7, so the release does not come first. *)
Lemma arena_released_after_accumulation :
  index_of is_accumulate (trace Sample.functor3 Sample.start) = Some 5%nat
  /\ index_of is_wrapper_dtor (trace Sample.functor3 Sample.start)
     = Some 7%nat
  /\ ~ (exists i j : nat,
          index_of is_wrapper_dtor (trace Sample.functor3 Sample.start)
          = Some i
          /\ index_of is_accumulate (trace Sample.functor3 Sample.start)
             = Some j
          /\ (i < j)%nat).
Proof.
  split; [reflexivity|]. split; [reflexivity|].
  intros (i & j & Hi & Hj & Hlt).
  vm_compute in Hi. vm_compute in Hj.
  injection Hi as <-. injection Hj as <-. lia.
Qed.

(** C3, as stated, fails.  On the sample functor call the seven counts are
    non-negative and add up to 5461, and the value reported is 780, which
    is not their arithmetic mean: seven times 780 is not 5461.  With a
    clock that steps back in the first repetition, a measured count is
    negative (-1), and the value reported, 2635249153387078802, is not the
    sum divided by 7 either. *)
Lemma reported_value_is_not_the_mean :
  (accumulated (trace Sample.functor3 Sample.start)
   = [1; 4; 16; 64; 256; 1024; 4096]
   /\ results_of (trace Sample.functor3 Sample.start)
      = [("list_linear", "3", 780)]
   /\ REPEAT * 780 <> sum (accumulated (trace Sample.functor3 Sample.start)))
  /\ (accumulated (trace SteppedBack.functor3 Sample.start)
      = [-1; 0; 0; 0; 0; 0; 0]
      /\ results_of (trace SteppedBack.functor3 Sample.start)
         = [("list_linear", "3", 2635249153387078802)]
      /\ 2635249153387078802
         <> sum (accumulated (trace SteppedBack.functor3 Sample.start))
            / REPEAT).
Proof.
  split; (split; [reflexivity|]; split; [reflexivity|]);
    vm_compute; discriminate.
Qed.

(** C3 (as amended) at the sample functor call: the seven counts are
    non-negative, their sum 5461 fits in [size_t], and the value reported
    is 5461 / 7 rounded down, 780. *)
Lemma reported_value_is_truncated_mean_witness :
  forallb (fun d => 0 <=? d)
    (accumulated (trace Sample.functor3 Sample.start))
  && (sum (accumulated (trace Sample.functor3 Sample.start))
      <? SIZE_MODULUS)
  = true
  /\ (REPEAT = 7
      /\ List.length (accumulated (trace Sample.functor3 Sample.start))
         = 7%nat
      /\ results_of (trace Sample.functor3 Sample.start)
         = [("list_linear", to_string 3,
             to_size_t (sum (accumulated (trace Sample.functor3 Sample.start)))
             / REPEAT)]
      /\ to_size_t (sum (accumulated (trace Sample.functor3 Sample.start)))
         / REPEAT
         = sum (accumulated (trace Sample.functor3 Sample.start)) / REPEAT
      /\ REPEAT
         * (sum (accumulated (trace Sample.functor3 Sample.start)) / REPEAT)
         <= sum (accumulated (trace Sample.functor3 Sample.start))
         < REPEAT
           * (sum (accumulated (trace Sample.functor3 Sample.start))
              / REPEAT)
           + REPEAT).
Proof.
  split; [reflexivity|].
  destruct (reported_value_is_truncated_mean Sample.policy_run Sample.make
              Sample.clock std_list TrivialSmall linear_allocator_wrapper
              microseconds Empty [FillBack] 3 "list_linear" Sample.start)
    as (Hrepeat & Hlength & Hresults & Hmean).
  split; [exact Hrepeat|]. split; [exact Hlength|].
  split; [exact Hresults|].
  apply Hmean. reflexivity.
Defined.

(** * Further properties *)

(** ** Type classification *)

(** X1: no type is trivial of some size and non-trivial of some size at
    once, and a type is trivial of at most one size: being trivial of [s]
    and of [s'] is being trivial of [s] with [s = s']. *)
Theorem trivial_of_size_exclusive (T : ValueType) (s s' : Z) :
  is_trivial_of_size T s && is_non_trivial_of_size T s' = false
  /\ is_trivial_of_size T s && is_trivial_of_size T s'
     = is_trivial_of_size T s && (s =? s').
Proof.
  unfold is_trivial_of_size, is_non_trivial_of_size.
  destruct (is_trivial T); cbn; [|split; reflexivity].
  split.
  - apply andb_false_r.
  - destruct (Z.eqb_spec (sizeof T) s) as [<-|Hs]; cbn; [reflexivity|].
    reflexivity.
Qed.

(** X2: the movability classes do not overlap: no type is both
    nothrow-movable and non-nothrow-movable, none is both
    non-nothrow-movable and non-movable, and a trivial type is in none of
    the non-trivial classes. *)
Theorem movability_classes_exclusive (T : ValueType) (s : Z) :
  is_non_trivial_nothrow_movable T && is_non_trivial_non_nothrow_movable T
  = false
  /\ is_non_trivial_non_nothrow_movable T && is_non_trivial_non_movable T
     = false
  /\ is_trivial T
     && (is_non_trivial_nothrow_movable T
         || is_non_trivial_non_nothrow_movable T
         || is_non_trivial_non_movable T
         || is_non_trivial_of_size T s)
     = false.
Proof.
  unfold is_non_trivial_nothrow_movable, is_non_trivial_non_nothrow_movable,
    is_non_trivial_non_movable, is_non_trivial_of_size.
  destruct (is_trivial T), (is_move_constructible T), (is_move_assignable T),
    (is_nothrow_move_constructible T), (is_nothrow_move_assignable T),
    (is_copy_constructible T), (is_copy_assignable T);
    cbn; rewrite ?andb_false_r; repeat split.
Qed.

(** ** The arena dimensions *)

(** X3: as long as [8 * (N + 1000)] fits in [size_t], that is for
    [0 <= N < 2 ^ 61 - 1000], the buffer size is exactly that product; at
    [N = 2 ^ 61 - 1000] the product wraps and the buffer size is 0. *)
Theorem BufferSize_exact_below_wrap (T : ValueType) (N : Z)
  (Hlow : 0 <= N) (Hhigh : N < 2 ^ 61 - 1000) :
  BufferSize T N = 8 * (N + 1000)
  /\ BufferSize T (2 ^ 61 - 1000) = 0.
Proof.
  split; [|reflexivity].
  rewrite BufferSize_eq. apply to_size_t_small.
  unfold sizeof_size_t, SIZE_MODULUS, sizeof_size_t. lia.
Qed.

(** X3 for [TrivialMonster] and 100000 elements. *)
Lemma BufferSize_exact_below_wrap_witness :
  0 <= 100000
  /\ 100000 < 2 ^ 61 - 1000
  /\ BufferSize TrivialMonster 100000 = 8 * (100000 + 1000)
  /\ BufferSize TrivialMonster (2 ^ 61 - 1000) = 0.
Proof.
  split; [discriminate|]. split; [reflexivity|].
  apply (BufferSize_exact_below_wrap TrivialMonster 100000);
    [discriminate|reflexivity].
Defined.

(** X4: for a value type of at least 8 bytes and more than 500 elements,
    the buffer is smaller than [N] list nodes of the size the functor
    computes ([sizeof(T)] plus two pointers). *)
Theorem BufferSize_below_node_demand (T : ValueType) (N : Z)
  (Hsize : 8 <= sizeof T < 2 ^ 32) (HN : 500 < N < 2 ^ 28) :
  BufferSize T N < NodeSize T * N.
Proof.
  rewrite BufferSize_eq.
  unfold NodeSize.
  rewrite !to_size_t_small;
    unfold sizeof_size_t, sizeof_uintptr_t, SIZE_MODULUS, sizeof_size_t;
    try nia.
Qed.

(** X4 for [TrivialSmall] and 1000 elements: 16000 bytes against 24000. *)
Lemma BufferSize_below_node_demand_witness :
  8 <= sizeof TrivialSmall < 2 ^ 32
  /\ 500 < 1000 < 2 ^ 28
  /\ BufferSize TrivialSmall 1000 < NodeSize TrivialSmall * 1000.
Proof.
  split; [split; [discriminate|reflexivity]|].
  split; [split; reflexivity|].
  apply (BufferSize_below_node_demand TrivialSmall 1000);
    split; solve [discriminate | reflexivity].
Defined.

(** ** Tags *)

Lemma is_tag_underscore (isalnum : Z -> bool) :
  is_tag isalnum (int_of_char "_") = true.
Proof.
  unfold is_tag. rewrite Z.eqb_refl. apply orb_true_r.
Qed.

(** X5: every character of a tag passes [is_tag]: [tag] never returns a
    string with a character that is neither alphanumeric nor an
    underscore, whatever the classification. *)
Theorem tag_has_only_tag_characters (isalnum : Z -> bool) (s : string) :
  all_tag isalnum (tag isalnum s) = true.
Proof.
  unfold all_tag, tag. induction s as [|c s IH].
  - reflexivity.
  - cbn [replace_if list_ascii_of_string forallb]. rewrite IH, andb_true_r.
    destruct (is_tag isalnum (int_of_char c)) eqn:Hc; cbn.
    + exact Hc.
    + apply is_tag_underscore.
Qed.

(** X6: [tag] works character by character: the tag of a concatenation is
    the concatenation of the tags, and the tag of the empty string is
    empty. *)
Theorem tag_of_concatenation (isalnum : Z -> bool) (s1 s2 : string) :
  tag isalnum (s1 ++ s2) = (tag isalnum s1 ++ tag isalnum s2)%string
  /\ tag isalnum "" = "".
Proof.
  split; [|reflexivity].
  unfold tag. induction s1 as [|c s1 IH]; cbn.
  - reflexivity.
  - rewrite IH. reflexivity.
Qed.

(** X7: the strings [tag] leaves as they are are exactly those made of
    tag characters only. *)
Theorem tag_fixes_exactly_tag_strings (isalnum : Z -> bool) (s : string) :
  tag isalnum s = s <-> all_tag isalnum s = true.
Proof.
  unfold tag, all_tag. induction s as [|c s IH].
  - split; reflexivity.
  - cbn [replace_if list_ascii_of_string forallb].
    destruct (is_tag isalnum (int_of_char c)) eqn:Hc; cbn.
    + split.
      * intros H. injection H as H. apply IH. exact H.
      * intros H. f_equal. apply IH. exact H.
    + split; [|discriminate].
      intros H. injection H as Hhead _. subst c.
      rewrite is_tag_underscore in Hc. discriminate.
Qed.

(** X8: in the "C" locale every character of a tag is one of the 63
    characters [0-9], [A-Z], [a-z] and [_]; bytes above 127 of the name are
    replaced like any other character that is not one of these. *)
Theorem tag_C_locale_is_ascii_identifier (s : string) :
  forallb
    (fun c => isalnum_C (Z.of_N (N_of_ascii c)) || Ascii.eqb c "_")
    (list_ascii_of_string (tag isalnum_C s))
  = true.
Proof.
  unfold tag. induction s as [|c s IH].
  - reflexivity.
  - cbn [replace_if list_ascii_of_string forallb]. rewrite IH, andb_true_r.
    clear IH.
    destruct c as [[] [] [] [] [] [] [] []]; reflexivity.
Qed.

(** ** A whole [bench] *)

Lemma flat_map_of_map {A B X : Type} (f : B -> list X) (g : A -> B)
  (l : list A) :
  flat_map f (map g l) = flat_map (fun x => f (g x)) l.
Proof.
  induction l as [|x l IH]; cbn; [reflexivity|rewrite IH; reflexivity].
Qed.

Section BencherMore.

Context {Container TestPolicy CreatePolicy : Type}.
Variable policy_run : TestPolicy -> Container -> Z -> Container.
Variable make :
  CreatePolicy -> ContainerKind -> ValueType -> Z -> Allocator -> Container.
Variable clock : nat -> Z.
Variable C : ContainerKind.
Variable ValueT : ValueType.
Variable AllocatorWrapper : WrapperKind.
Variable Unit : DurationUnit.
Variable Create : CreatePolicy.
Variable Sizes : SizesType.
Variable Tests : list TestPolicy.

Local Abbreviation Ev := (Event TestPolicy CreatePolicy).
Local Abbreviation rep_events :=
  (repetition_events clock C ValueT AllocatorWrapper Unit Create Tests).
Local Abbreviation reps_events :=
  (repetitions_events clock C ValueT AllocatorWrapper Unit Create Tests).
Local Abbreviation functor' :=
  (functor policy_run make clock C ValueT AllocatorWrapper Unit Create Tests).
Local Abbreviation bench' :=
  (bench policy_run make clock C ValueT AllocatorWrapper Unit Create Sizes
     Tests).
Local Abbreviation total' :=
  (total_duration clock C ValueT AllocatorWrapper Unit Create Tests).

Ltac open_bench :=
  unfold bench;
  repeat (rewrite trace_bind || rewrite world_after_bind
          || rewrite functor_world);
  cbn [clock_reads wrappers_built].

(** Any reading of a trace event by event, on the events of repetitions. *)
Lemma flat_map_repetition {X : Type} (f : Ev -> list X) (N : Z)
  (id k : nat) :
  flat_map f (rep_events N id k)
  = f (EvWrapperCtor id AllocatorWrapper ValueT (BufferSize ValueT N)
         (Align ValueT))
    ++ f (EvMake Create C ValueT N (mkAllocator AllocatorWrapper id))
    ++ f (EvNow (clock k))
    ++ flat_map (fun P => f (EvPolicy P N)) Tests
    ++ f (EvNow (clock (S k)))
    ++ f (EvAccumulate (elapsed_at clock Unit k))
    ++ f (EvContainerDtor (mkAllocator AllocatorWrapper id))
    ++ f (EvWrapperDtor id).
Proof.
  unfold repetition_events.
  rewrite !flat_map_app. cbn [flat_map]. rewrite !app_nil_r.
  rewrite <- !app_assoc.
  do 3 f_equal.
  rewrite flat_map_of_map. reflexivity.
Qed.

Lemma flat_map_repetitions {X : Type} (f : Ev -> list X) (n : nat) (N : Z)
  (id k : nat) :
  flat_map f (reps_events n N id k)
  = flat_map (fun i => flat_map f (rep_events N (i + id) (2 * i + k)))
      (seq 0 n).
Proof.
  revert id k. induction n as [|n IH]; intros id k.
  - reflexivity.
  - rewrite repetitions_events_S, flat_map_app, IH.
    cbn [seq flat_map]. f_equal.
    rewrite <- seq_shift, flat_map_of_map.
    apply flat_map_ext. intros i.
    replace (i + S id)%nat with (S i + id)%nat by lia.
    replace (2 * i + S (S k))%nat with (2 * S i + k)%nat by lia.
    reflexivity.
Qed.

Lemma functor_flat_map {X : Type} (f : Ev -> list X) (N : Z)
  (type : string) (w : World) :
  flat_map f (trace (functor' N type) w)
  = flat_map
      (fun i =>
         flat_map f
           (rep_events N (i + wrappers_built w) (2 * i + clock_reads w)))
      (seq 0 (Z.to_nat REPEAT))
    ++ f (EvNewResult type (to_string N) (total' N w / REPEAT))
    ++ f (EvClean Create).
Proof.
  rewrite functor_trace, flat_map_app, flat_map_repetitions.
  cbn [flat_map]. rewrite app_nil_r. reflexivity.
Qed.

Lemma functor_wrappers (N : Z) (type : string) (w : World) :
  wrappers_of (trace (functor' N type) w) = seq (wrappers_built w) 7.
Proof.
  rewrite functor_trace, wrappers_of_app, wrappers_of_repetitions.
  apply app_nil_r.
Qed.

(** X9: a call of [bench] reads the clock 140 times and builds 70 wrappers,
    numbered consecutively: over the ten sizes no two repetitions share a
    wrapper. *)
Theorem bench_wrappers_distinct (type : string) (w : World) :
  world_after (bench' type) w
  = mkWorld (140 + clock_reads w) (70 + wrappers_built w)
  /\ wrappers_of (trace (bench' type) w) = seq (wrappers_built w) 70
  /\ NoDup (wrappers_of (trace (bench' type) w)).
Proof.
  assert (Hw : wrappers_of (trace (bench' type) w)
               = seq (wrappers_built w) 70).
  { open_bench. rewrite !wrappers_of_app, !functor_wrappers.
    cbn [clock_reads wrappers_built]. reflexivity. }
  split; [|split].
  - open_bench. reflexivity.
  - exact Hw.
  - rewrite Hw. apply seq_NoDup.
Qed.

Lemma accumulated_repetitions_from (n : nat) (N : Z) (id k : nat) :
  accumulated (reps_events n N id k)
  = map (fun i => elapsed_at clock Unit (2 * i + k)) (seq 0 n).
Proof.
  rewrite accumulated_repetitions. apply map_ext. intros i.
  f_equal. lia.
Qed.

Lemma functor_accumulated_from (N : Z) (type : string) (w : World) :
  accumulated (trace (functor' N type) w)
  = map (fun i => elapsed_at clock Unit (2 * i + clock_reads w)) (seq 0 7).
Proof.
  rewrite functor_accumulated, accumulated_repetitions_from. reflexivity.
Qed.

(** X10: the 70 elapsed counts of a call of [bench] come from consecutive
    pairs of clock readings: the count number [i] is the time between the
    readings [2 i] and [2 i + 1] after the start, cast to the duration
    unit, so that the time between a repetition's second reading and the
    next repetition's first one is never counted. *)
Theorem bench_measures_consecutive_pairs (type : string) (w : World) :
  accumulated (trace (bench' type) w)
  = map
      (fun i =>
         duration_cast Unit
           (clock (S (2 * i + clock_reads w))
            - clock (2 * i + clock_reads w)))
      (seq 0 70).
Proof.
  open_bench.
  rewrite !accumulated_app, !functor_accumulated_from.
  cbn [clock_reads wrappers_built]. reflexivity.
Qed.

(** X11: whatever the clock does, the functor reports one value: the sum
    of the seven elapsed counts reduced modulo [2 ^ 64], divided by 7; it
    lies between 0 and 2635249153387078802. *)
Theorem reported_value_wraps (N : Z) (type : string) (w : World) :
  results_of (trace (functor' N type) w)
  = [(type, to_string N,
      (sum (accumulated (trace (functor' N type) w)) mod 2 ^ 64) / 7)]
  /\ 0 <= (sum (accumulated (trace (functor' N type) w)) mod 2 ^ 64) / 7
     <= 2635249153387078802.
Proof.
  split.
  - rewrite functor_results, functor_accumulated. reflexivity.
  - pose proof (Z.mod_pos_bound
                  (sum (accumulated (trace (functor' N type) w))) (2 ^ 64)
                  eq_refl) as Hm.
    split.
    + apply Z.div_pos; lia.
    + assert (Hlt :
        (sum (accumulated (trace (functor' N type) w)) mod 2 ^ 64) / 7
        < 2635249153387078803)
        by (apply Z.div_lt_upper_bound; lia).
      lia.
Qed.

Lemma forward_counts (k : nat) (l : list nat) :
  forallb (fun i => clock (2 * i + k) <=? clock (S (2 * i + k))) l = true ->
  forallb (fun d => 0 <=? d)
    (map (fun i => elapsed_at clock Unit (2 * i + k)) l) = true.
Proof.
  induction l as [|i l IH]; cbn [forallb map]; [reflexivity|].
  intros H. apply andb_prop in H. destruct H as [Hi Hl].
  rewrite (IH Hl), andb_true_r.
  apply Z.leb_le. apply Z.leb_le in Hi.
  unfold elapsed_at, duration_cast. apply Z.quot_pos; [lia|].
  destruct Unit; cbn; lia.
Qed.

(** X12: when in each of the seven repetitions the second clock reading is
    not earlier than the first, every elapsed count the functor
    accumulates is non-negative. *)
Theorem forward_clock_counts_nonnegative (N : Z) (type : string)
  (w : World)
  (Hforward :
     forallb
       (fun i =>
          clock (2 * i + clock_reads w) <=? clock (S (2 * i + clock_reads w)))
       (seq 0 7)
     = true) :
  forallb (fun d => 0 <=? d) (accumulated (trace (functor' N type) w))
  = true.
Proof.
  rewrite functor_accumulated_from. apply forward_counts. exact Hforward.
Qed.

Lemma sum_nonneg (l : list Z) :
  forallb (fun d => 0 <=? d) l = true -> 0 <= sum l.
Proof.
  unfold sum. induction l as [|d l IH]; cbn [forallb fold_right].
  - intros _. lia.
  - intros H. apply andb_prop in H. destruct H as [Hd Hl].
    apply Z.leb_le in Hd. specialize (IH Hl). lia.
Qed.

Lemma quot_sum_bounds (t : Z) (ds : list Z) :
  0 < t ->
  forallb (fun d => 0 <=? d) ds = true ->
  t * sum (map (fun d => Z.quot d t) ds) <= sum ds
  /\ sum ds
     <= t * sum (map (fun d => Z.quot d t) ds)
        + Z.of_nat (List.length ds) * (t - 1).
Proof.
  intros Ht. unfold sum.
  induction ds as [|d ds IH]; cbn [forallb map fold_right List.length].
  - intros _. lia.
  - intros H. apply andb_prop in H. destruct H as [Hd Hds].
    apply Z.leb_le in Hd. specialize (IH Hds).
    rewrite Z.quot_div_nonneg by lia.
    pose proof (Z.div_mod d t ltac:(lia)) as Hdm.
    pose proof (Z.mod_pos_bound d t Ht) as Hmod.
    nia.
Qed.

(** X13: when the clock does not step back within a repetition and the
    counts add up without wrapping, the reported value [v] never
    overstates the mean time of a repetition and understates it by less
    than two units: the nanoseconds that really passed in the seven timed
    regions lie between [7 v] units and [7 v + 13] units. *)
Theorem reported_mean_within_two_units (N : Z) (type : string) (w : World)
  (Hforward :
     forallb
       (fun i =>
          clock (2 * i + clock_reads w) <=? clock (S (2 * i + clock_reads w)))
       (seq 0 7)
     = true)
  (Hfits : sum (accumulated (trace (functor' N type) w)) < SIZE_MODULUS) :
  results_of (trace (functor' N type) w)
  = [(type, to_string N,
      sum (accumulated (trace (functor' N type) w)) / REPEAT)]
  /\ ticks_per Unit
     * (REPEAT * (sum (accumulated (trace (functor' N type) w)) / REPEAT))
     <= elapsed_ticks clock (clock_reads w)
     < ticks_per Unit
       * (REPEAT * (sum (accumulated (trace (functor' N type) w)) / REPEAT)
          + 13).
Proof.
  pose proof (forward_counts _ _ Hforward) as Hnonneg.
  pose proof (sum_nonneg _ Hnonneg) as Hsum.
  rewrite functor_results.
  rewrite functor_accumulated_from in *.
  unfold total_duration. rewrite accumulated_repetitions_from.
  change (Z.to_nat REPEAT) with 7%nat.
  split.
  - rewrite to_size_t_small by lia. reflexivity.
  - set (ds := map
                 (fun i =>
                    clock (S (2 * i + clock_reads w))
                    - clock (2 * i + clock_reads w))
                 (seq 0 7)).
    assert (Hacc :
      map (fun i => elapsed_at clock Unit (2 * i + clock_reads w)) (seq 0 7)
      = map (fun d => Z.quot d (ticks_per Unit)) ds).
    { unfold ds. rewrite map_map. reflexivity. }
    assert (Hticks : elapsed_ticks clock (clock_reads w) = sum ds).
    { unfold elapsed_ticks, ds. f_equal. apply map_ext. intros i.
      replace (clock_reads w + 2 * i)%nat with (2 * i + clock_reads w)%nat
        by lia.
      reflexivity. }
    assert (Hds : forallb (fun d => 0 <=? d) ds = true).
    { unfold ds. clear - Hforward. revert Hforward.
      generalize (seq 0 7). intros l.
      induction l as [|i l IH]; cbn [forallb map]; [reflexivity|].
      intros H. apply andb_prop in H. destruct H as [Hi Hl].
      rewrite (IH Hl), andb_true_r.
      apply Z.leb_le. apply Z.leb_le in Hi. lia. }
    assert (Ht : 0 < ticks_per Unit) by (destruct Unit; reflexivity).
    pose proof (quot_sum_bounds (ticks_per Unit) ds Ht Hds) as [Hlo Hhi].
    assert (Hlen : Z.of_nat (List.length ds) = 7).
    { unfold ds. rewrite length_map, length_seq. reflexivity. }
    rewrite Hacc in *. rewrite Hticks, Hlen in *.
    unfold REPEAT.
    pose proof (Z.mul_div_le
      (sum (map (fun d => Z.quot d (ticks_per Unit)) ds)) 7 eq_refl).
    pose proof (Z.mul_succ_div_gt
      (sum (map (fun d => Z.quot d (ticks_per Unit)) ds)) 7 eq_refl).
    nia.
Qed.

(** X14: when the clock steps back so far that the seven counts add up to
    a negative number (above [- 2 ^ 64]), the functor reports neither a
    negative value nor an error, but that sum plus [2 ^ 64], divided by
    7. *)
Theorem backward_clock_reports_wrapped_value (N : Z) (type : string)
  (w : World)
  (Hnegative :
     - SIZE_MODULUS <= sum (accumulated (trace (functor' N type) w)) < 0) :
  results_of (trace (functor' N type) w)
  = [(type, to_string N,
      (SIZE_MODULUS + sum (accumulated (trace (functor' N type) w)))
      / REPEAT)].
Proof.
  rewrite functor_results.
  rewrite functor_accumulated in *.
  unfold total_duration.
  do 3 f_equal.
  unfold to_size_t.
  symmetry. apply Z.mod_unique_pos with (q := -1); lia.
Qed.

Lemma flat_map_singleton {A B : Type} (g : A -> B) (l : list A) :
  flat_map (fun x => [g x]) l = map g l.
Proof.
  induction l as [|x l IH]; cbn; [reflexivity|rewrite IH; reflexivity].
Qed.

Lemma functor_calls (N : Z) (type : string) (w : World) :
  calls_of (trace (functor' N type) w)
  = List.concat (repeat (map (fun P => (P, N)) Tests) 7).
Proof.
  unfold calls_of. rewrite functor_flat_map.
  change (Z.to_nat REPEAT) with 7%nat.
  cbn [seq flat_map]. rewrite !flat_map_repetition.
  cbn [call_of app]. rewrite !app_nil_r.
  rewrite flat_map_singleton. cbn [repeat List.concat].
  rewrite !app_nil_r. reflexivity.
Qed.

Lemma functor_made_sizes (N : Z) (type : string) (w : World) :
  made_sizes (trace (functor' N type) w) = repeat N 7.
Proof.
  unfold made_sizes. rewrite functor_flat_map.
  change (Z.to_nat REPEAT) with 7%nat.
  cbn [seq flat_map]. rewrite !flat_map_repetition.
  cbn [made_size_of app].
  assert (Hnone : flat_map (fun _ : TestPolicy => @nil Z) Tests = []).
  { clear. induction Tests as [|P l IH]; cbn; auto. }
  rewrite Hnone. reflexivity.
Qed.

Lemma made_sizes_app (tr1 tr2 : list Ev) :
  made_sizes (tr1 ++ tr2) = made_sizes tr1 ++ made_sizes tr2.
Proof. apply flat_map_app. Qed.

Lemma calls_of_app (tr1 tr2 : list Ev) :
  calls_of (tr1 ++ tr2) = calls_of tr1 ++ calls_of tr2.
Proof. apply flat_map_app. Qed.

(** X15: during a call of [bench], for each size of the list in turn, seven
    containers are made for that size, and the whole policy chain is
    called seven times, in the order of the chain, each policy with that
    same size. *)
Theorem bench_runs_chain_seven_times_per_size (type : string) (w : World) :
  made_sizes (trace (bench' type) w)
  = flat_map (fun n => repeat n 7) (sizes_list Sizes)
  /\ calls_of (trace (bench' type) w)
     = flat_map
         (fun n => List.concat (repeat (map (fun P => (P, n)) Tests) 7))
         (sizes_list Sizes).
Proof.
  split.
  - open_bench. rewrite !made_sizes_app, !functor_made_sizes. reflexivity.
  - open_bench. rewrite !calls_of_app, !functor_calls.
    cbn [sizes_list flat_map]. rewrite app_nil_r.
    reflexivity.
Qed.

Lemma scope_run_app (s : Scope) (tr1 tr2 : list Ev) :
  scope_run s (tr1 ++ tr2)
  = match scope_run s tr1 with
    | Some s' => scope_run s' tr2
    | None => None
    end.
Proof.
  revert s. induction tr1 as [|e tr1 IH]; intros s; cbn.
  - reflexivity.
  - destruct (scope_step s e); [apply IH|reflexivity].
Qed.

Lemma scope_run_policies (id : nat) (N : Z) (tests : list TestPolicy) :
  scope_run (mkScope (Some id) true)
    (map (fun P => EvPolicy (CreatePolicy:=CreatePolicy) P N) tests)
  = Some (mkScope (Some id) true).
Proof.
  induction tests as [|P tests IH]; cbn; [reflexivity|exact IH].
Qed.

Lemma scope_run_repetition (N : Z) (id k : nat) :
  scope_run idle (rep_events N id k) = Some idle.
Proof.
  unfold repetition_events.
  rewrite scope_run_app.
  assert (Hopen :
    scope_run idle
      [ EvWrapperCtor (TestPolicy:=TestPolicy) id AllocatorWrapper ValueT
          (BufferSize ValueT N) (Align ValueT);
        EvMake Create C ValueT N (mkAllocator AllocatorWrapper id);
        EvNow (clock k) ]
    = Some (mkScope (Some id) true)).
  { cbn. rewrite Nat.eqb_refl. reflexivity. }
  rewrite Hopen, scope_run_app, scope_run_policies.
  cbn. rewrite Nat.eqb_refl. cbn. rewrite Nat.eqb_refl. reflexivity.
Qed.

Lemma scope_run_repetitions (n : nat) (N : Z) (id k : nat) :
  scope_run idle (reps_events n N id k) = Some idle.
Proof.
  revert id k. induction n as [|n IH]; intros id k.
  - reflexivity.
  - rewrite repetitions_events_S, scope_run_app, scope_run_repetition.
    apply IH.
Qed.

Lemma scope_run_functor (N : Z) (type : string) (w : World) :
  scope_run idle (trace (functor' N type) w) = Some idle.
Proof.
  rewrite functor_trace, scope_run_app, scope_run_repetitions.
  reflexivity.
Qed.

Lemma scope_run_bench (type : string) (w : World) :
  scope_run idle (trace (bench' type) w) = Some idle.
Proof.
  open_bench.
  repeat (rewrite scope_run_app, scope_run_functor; cbv beta iota).
  apply scope_run_functor.
Qed.

(** X16: the trace of a call of [bench] respects the lifetimes: at most one
    wrapper is alive at a time; each container is made from the allocator
    of the wrapper alive at that moment and is destroyed before it; the
    clock is read, the policies run and the count is accumulated only
    while that container is alive; the report sink and the cleanup are
    called only when no wrapper is alive; and nothing is left alive at the
    end. *)
Theorem bench_respects_lifetimes (type : string) (w : World) :
  scope_run idle (trace (bench' type) w) = Some idle.
Proof.
  apply scope_run_bench.
Qed.

Lemma bench_world (type : string) (w : World) :
  world_after (bench' type) w
  = mkWorld (140 + clock_reads w) (70 + wrappers_built w).
Proof.
  open_bench. reflexivity.
Qed.

Lemma bench_accumulated_from (type : string) (w : World) :
  accumulated (trace (bench' type) w)
  = map (fun i => elapsed_at clock Unit (2 * i + clock_reads w)) (seq 0 70).
Proof.
  open_bench.
  rewrite !accumulated_app, !functor_accumulated_from.
  cbn [clock_reads wrappers_built]. reflexivity.
Qed.

Lemma series_of_app (tr1 tr2 : list Ev) :
  series_of (tr1 ++ tr2) = series_of tr1 ++ series_of tr2.
Proof. apply flat_map_app. Qed.

Lemma functor_series (N : Z) (type : string) (w : World) :
  series_of (trace (functor' N type) w) = [type].
Proof.
  unfold series_of. rewrite functor_flat_map.
  change (Z.to_nat REPEAT) with 7%nat.
  cbn [seq flat_map]. rewrite !flat_map_repetition.
  cbn [serie_of app].
  assert (Hnone : flat_map (fun _ : TestPolicy => @nil string) Tests = []).
  { clear. induction Tests as [|P l IH]; cbn; auto. }
  rewrite Hnone. reflexivity.
Qed.

Lemma bench_series (type : string) (w : World) :
  series_of (trace (bench' type) w) = repeat type 10.
Proof.
  open_bench. rewrite !series_of_app, !functor_series. reflexivity.
Qed.

Lemma harness_policies (N : Z) (tests : list TestPolicy) :
  forallb is_harness_event
    (map (fun P => EvPolicy (CreatePolicy:=CreatePolicy) P N) tests)
  = true.
Proof.
  induction tests as [|P tests IH]; cbn; auto.
Qed.

Lemma harness_repetitions (n : nat) (N : Z) (id k : nat) :
  forallb is_harness_event (reps_events n N id k) = true.
Proof.
  revert id k. induction n as [|n IH]; intros id k.
  - reflexivity.
  - rewrite repetitions_events_S, forallb_app, IH, andb_true_r.
    unfold repetition_events.
    rewrite !forallb_app, harness_policies. reflexivity.
Qed.

Lemma functor_harness (N : Z) (type : string) (w : World) :
  forallb is_harness_event (trace (functor' N type) w) = true.
Proof.
  rewrite functor_trace, forallb_app, harness_repetitions. reflexivity.
Qed.

Lemma bench_harness (type : string) (w : World) :
  forallb is_harness_event (trace (bench' type) w) = true.
Proof.
  open_bench. rewrite !forallb_app, !functor_harness. reflexivity.
Qed.

End BencherMore.

(** X12 at the sample functor call, whose clock only moves forward. *)
Lemma forward_clock_counts_nonnegative_witness :
  forallb
    (fun i =>
       Sample.clock (2 * i + clock_reads Sample.start)
       <=? Sample.clock (S (2 * i + clock_reads Sample.start)))
    (seq 0 7)
  = true
  /\ forallb (fun d => 0 <=? d)
       (accumulated (trace Sample.functor3 Sample.start))
     = true.
Proof.
  split; [reflexivity|].
  apply (forward_clock_counts_nonnegative Sample.policy_run Sample.make
           Sample.clock std_list TrivialSmall linear_allocator_wrapper
           microseconds Empty [FillBack] 3 "list_linear" Sample.start).
  reflexivity.
Defined.

(** X13 at the sample functor call: 5461000 nanoseconds passed, 780 is
    reported, and 5460000 <= 5461000 < 5473000. *)
Lemma reported_mean_within_two_units_witness :
  forallb
    (fun i =>
       Sample.clock (2 * i + clock_reads Sample.start)
       <=? Sample.clock (S (2 * i + clock_reads Sample.start)))
    (seq 0 7)
  = true
  /\ sum (accumulated (trace Sample.functor3 Sample.start)) < SIZE_MODULUS
  /\ results_of (trace Sample.functor3 Sample.start)
     = [("list_linear", to_string 3,
         sum (accumulated (trace Sample.functor3 Sample.start)) / REPEAT)]
  /\ ticks_per microseconds
     * (REPEAT
        * (sum (accumulated (trace Sample.functor3 Sample.start)) / REPEAT))
     <= elapsed_ticks Sample.clock (clock_reads Sample.start)
     < ticks_per microseconds
       * (REPEAT
          * (sum (accumulated (trace Sample.functor3 Sample.start))
             / REPEAT)
          + 13).
Proof.
  split; [reflexivity|]. split; [reflexivity|].
  apply (reported_mean_within_two_units Sample.policy_run Sample.make
           Sample.clock std_list TrivialSmall linear_allocator_wrapper
           microseconds Empty [FillBack] 3 "list_linear" Sample.start);
    reflexivity.
Defined.

(** X14 with a clock that steps back by one microsecond in the first
    repetition: the counts add up to -1 and the value reported is
    [(2 ^ 64 - 1) / 7]. *)
Lemma backward_clock_reports_wrapped_value_witness :
  - SIZE_MODULUS
  <= sum (accumulated (trace SteppedBack.functor3 Sample.start)) < 0
  /\ results_of (trace SteppedBack.functor3 Sample.start)
     = [("list_linear", "3", 2635249153387078802)].
Proof.
  split; [split; [apply Z.leb_le|]; vm_compute; reflexivity|].
  apply (backward_clock_reports_wrapped_value Sample.policy_run Sample.make
           SteppedBack.clock std_list TrivialSmall linear_allocator_wrapper
           microseconds Empty [FillBack] 3 "list_linear" Sample.start).
  split; [apply Z.leb_le|]; vm_compute; reflexivity.
Defined.

(** ** The families and the driver, continued *)

Section CatalogMore.

Context {Container : Type}.
Variable policy_run : TestName -> Container -> Z -> Container.
Variable make :
  CreateName -> ContainerKind -> ValueType -> Z -> Allocator -> Container.
Variable clock : nat -> Z.
Variable isalnum : Z -> bool.
Variable demangle : string -> string.

Local Abbreviation Ev := (Event TestName CreateName).
Local Abbreviation Cmd := (M Ev).
Local Abbreviation entry := (graph_entry isalnum demangle).
Local Abbreviation fill_back' :=
  (bench_fill_back policy_run make clock isalnum demangle).
Local Abbreviation emplace_back' :=
  (bench_emplace_back policy_run make clock isalnum demangle).
Local Abbreviation fill_front' :=
  (bench_fill_front policy_run make clock isalnum demangle).
Local Abbreviation emplace_front' :=
  (bench_emplace_front policy_run make clock isalnum demangle).
Local Abbreviation linear_search' :=
  (bench_linear_search policy_run make clock isalnum demangle).
Local Abbreviation random_insert' :=
  (bench_random_insert policy_run make clock isalnum demangle).
Local Abbreviation random_remove' :=
  (bench_random_remove policy_run make clock isalnum demangle).
Local Abbreviation sort' :=
  (bench_sort policy_run make clock isalnum demangle).
Local Abbreviation destruction' :=
  (bench_destruction policy_run make clock isalnum demangle).
Local Abbreviation number_crunching' :=
  (bench_number_crunching policy_run make clock isalnum demangle).
Local Abbreviation bench_all' :=
  (bench_all policy_run make clock isalnum demangle).
Local Abbreviation main' := (main policy_run make clock isalnum demangle).

(** [bench_types] under any reading of the trace event by event that does
    not depend on the environment. *)
Lemma bench_types_flat_map {X : Type} (f : Ev -> list X)
  (Benchmark : ValueType -> Cmd unit) (g : ValueType -> list X) :
  (forall T w, flat_map f (trace (Benchmark T) w) = g T) ->
  forall Types w,
    flat_map f (trace (bench_types Benchmark Types) w) = flat_map g Types.
Proof.
  intros Hg Types. induction Types as [|T Rest IH]; intros w.
  - reflexivity.
  - cbn [bench_types flat_map].
    rewrite trace_bind, flat_map_app, Hg, IH. reflexivity.
Qed.

Ltac family_shape :=
  intros T w; cbv zeta;
  repeat rewrite trace_bind;
  cbn [trace new_graph emit snd app tl];
  split; [reflexivity|];
  rewrite ?forallb_app, ?bench_harness; reflexivity.

Local Abbreviation graph_first := (starts_with_graph isalnum demangle).

Lemma fill_back_shape : graph_first "fill_back" "us" fill_back'.
Proof. unfold bench_fill_back. family_shape. Qed.

Lemma emplace_back_shape : graph_first "emplace_back" "us" emplace_back'.
Proof. unfold bench_emplace_back. family_shape. Qed.

Lemma fill_front_shape : graph_first "fill_front" "us" fill_front'.
Proof.
  unfold bench_fill_front. intros T w. revert w.
  destruct (is_small T); intros w; revert T w; family_shape.
Qed.

Lemma emplace_front_shape : graph_first "emplace_front" "us" emplace_front'.
Proof.
  unfold bench_emplace_front. intros T w. revert w.
  destruct (is_small T); intros w; revert T w; family_shape.
Qed.

Lemma linear_search_shape : graph_first "linear_search" "us" linear_search'.
Proof. unfold bench_linear_search. family_shape. Qed.

Lemma random_insert_shape : graph_first "random_insert" "ms" random_insert'.
Proof. unfold bench_random_insert. family_shape. Qed.

Lemma random_remove_shape : graph_first "random_remove" "ms" random_remove'.
Proof. unfold bench_random_remove. family_shape. Qed.

Lemma sort_shape : graph_first "sort" "ms" sort'.
Proof. unfold bench_sort. family_shape. Qed.

Lemma destruction_shape : graph_first "destruction" "us" destruction'.
Proof. unfold bench_destruction. family_shape. Qed.

Lemma number_crunching_shape :
  graph_first "number_crunching" "ms" number_crunching'.
Proof. unfold bench_number_crunching. family_shape. Qed.

(** X17: every family first registers its graph and only then lets the
    harness run: the first event of a family's trace is the registration
    under the family's name and unit, and no other registration or
    rendering follows in it, so that every data point of the family is
    reported after its graph was registered. *)
Theorem families_register_before_reporting :
  starts_with_graph isalnum demangle "fill_back" "us"
    (bench_fill_back policy_run make clock isalnum demangle)
  /\ starts_with_graph isalnum demangle "emplace_back" "us"
    (bench_emplace_back policy_run make clock isalnum demangle)
  /\ starts_with_graph isalnum demangle "fill_front" "us"
    (bench_fill_front policy_run make clock isalnum demangle)
  /\ starts_with_graph isalnum demangle "emplace_front" "us"
    (bench_emplace_front policy_run make clock isalnum demangle)
  /\ starts_with_graph isalnum demangle "linear_search" "us"
    (bench_linear_search policy_run make clock isalnum demangle)
  /\ starts_with_graph isalnum demangle "random_insert" "ms"
    (bench_random_insert policy_run make clock isalnum demangle)
  /\ starts_with_graph isalnum demangle "random_remove" "ms"
    (bench_random_remove policy_run make clock isalnum demangle)
  /\ starts_with_graph isalnum demangle "sort" "ms"
    (bench_sort policy_run make clock isalnum demangle)
  /\ starts_with_graph isalnum demangle "destruction" "us"
    (bench_destruction policy_run make clock isalnum demangle)
  /\ starts_with_graph isalnum demangle "number_crunching" "ms"
    (bench_number_crunching policy_run make clock isalnum demangle).
Proof.
  split; [exact fill_back_shape|].
  split; [exact emplace_back_shape|].
  split; [exact fill_front_shape|].
  split; [exact emplace_front_shape|].
  split; [exact linear_search_shape|].
  split; [exact random_insert_shape|].
  split; [exact random_remove_shape|].
  split; [exact sort_shape|].
  split; [exact destruction_shape|exact number_crunching_shape].
Qed.

Ltac family_series :=
  cbv zeta;
  repeat rewrite trace_bind;
  rewrite !series_of_app, ?bench_series;
  reflexivity.

Lemma fill_back_series (T : ValueType) (w : World) :
  series_of (trace (fill_back' T) w)
  = repeat "vector" 10 ++ repeat "list" 10 ++ repeat "deque" 10
    ++ repeat "vector_reserve" 10 ++ repeat "list_linear" 10
    ++ repeat "vector_inserter" 10 ++ repeat "list_inserter" 10
    ++ repeat "deque_inserter" 10 ++ repeat "list_inserter_linear" 10.
Proof. unfold bench_fill_back. family_series. Qed.

Lemma emplace_back_series (T : ValueType) (w : World) :
  series_of (trace (emplace_back' T) w)
  = repeat "vector" 10 ++ repeat "list" 10 ++ repeat "deque" 10
    ++ repeat "list_linear" 10.
Proof. unfold bench_emplace_back. family_series. Qed.

Lemma fill_front_series (T : ValueType) (w : World) :
  series_of (trace (fill_front' T) w)
  = (if is_small T then repeat "vector" 10 else [])
    ++ repeat "list" 10 ++ repeat "deque" 10 ++ repeat "list_linear" 10.
Proof. unfold bench_fill_front. destruct (is_small T); family_series. Qed.

Lemma emplace_front_series (T : ValueType) (w : World) :
  series_of (trace (emplace_front' T) w)
  = (if is_small T then repeat "vector" 10 else [])
    ++ repeat "list" 10 ++ repeat "deque" 10 ++ repeat "list_linear" 10.
Proof. unfold bench_emplace_front. destruct (is_small T); family_series. Qed.

Lemma linear_search_series (T : ValueType) (w : World) :
  series_of (trace (linear_search' T) w)
  = repeat "vector" 10 ++ repeat "list" 10 ++ repeat "deque" 10
    ++ repeat "list_linear" 10.
Proof. unfold bench_linear_search. family_series. Qed.

Lemma random_insert_series (T : ValueType) (w : World) :
  series_of (trace (random_insert' T) w)
  = repeat "vector" 10 ++ repeat "list" 10 ++ repeat "deque" 10
    ++ repeat "list_linear" 10.
Proof. unfold bench_random_insert. family_series. Qed.

Lemma random_remove_series (T : ValueType) (w : World) :
  series_of (trace (random_remove' T) w)
  = repeat "vector" 10 ++ repeat "list" 10 ++ repeat "deque" 10
    ++ repeat "list_linear" 10.
Proof. unfold bench_random_remove. family_series. Qed.

Lemma sort_series (T : ValueType) (w : World) :
  series_of (trace (sort' T) w)
  = repeat "vector" 10 ++ repeat "list" 10 ++ repeat "deque" 10
    ++ repeat "list_linear" 10.
Proof. unfold bench_sort. family_series. Qed.

Lemma destruction_series (T : ValueType) (w : World) :
  series_of (trace (destruction' T) w)
  = repeat "vector" 10 ++ repeat "list" 10 ++ repeat "deque" 10
    ++ repeat "list_linear" 10.
Proof. unfold bench_destruction. family_series. Qed.

Lemma number_crunching_series (T : ValueType) (w : World) :
  series_of (trace (number_crunching' T) w)
  = repeat "vector" 10 ++ repeat "list" 10 ++ repeat "deque" 10
    ++ repeat "list_linear" 10.
Proof. unfold bench_number_crunching. family_series. Qed.

(** X18: the two front-insertion families report the [vector] serie exactly
    for the value types that fit in a machine word ([sizeof(T) <= 8]); for
    any other type they report the three remaining series only, 30 data
    points instead of 40. *)
Theorem front_families_skip_vector_unless_small (T : ValueType)
  (w : World) :
  is_small T = (sizeof T <=? 8)
  /\ series_of (trace (fill_front' T) w)
     = (if sizeof T <=? 8 then repeat "vector" 10 else [])
       ++ repeat "list" 10 ++ repeat "deque" 10 ++ repeat "list_linear" 10
  /\ series_of (trace (emplace_front' T) w)
     = (if sizeof T <=? 8 then repeat "vector" 10 else [])
       ++ repeat "list" 10 ++ repeat "deque" 10 ++ repeat "list_linear" 10
  /\ List.length (series_of (trace (fill_front' T) w))
     = if sizeof T <=? 8 then 40%nat else 30%nat.
Proof.
  rewrite fill_front_series, emplace_front_series.
  unfold is_small, sizeof_size_t.
  destruct (sizeof T <=? 8); repeat split.
Qed.

Lemma main_trace (w : World) :
  trace main' w = trace (bench_all' catalog) w ++ [EvOutput].
Proof.
  unfold main. repeat rewrite trace_bind. reflexivity.
Qed.

Lemma outputs_of_app (tr1 tr2 : list Ev) :
  outputs_of (tr1 ++ tr2) = outputs_of tr1 ++ outputs_of tr2.
Proof. apply flat_map_app. Qed.

Lemma harness_no_output (tr : list Ev) :
  forallb is_harness_event tr = true -> outputs_of tr = [].
Proof.
  unfold outputs_of.
  induction tr as [|e tr IH]; cbn [forallb flat_map]; [reflexivity|].
  intros H. apply andb_prop in H. destruct H as [He Htr].
  rewrite (IH Htr). destruct e; cbn in *; congruence.
Qed.

Lemma shape_no_output (testName unit_name : string)
  (Benchmark : ValueType -> Cmd unit) :
  graph_first testName unit_name Benchmark ->
  forall T w, flat_map output_of (trace (Benchmark T) w) = [].
Proof.
  intros H T w. destruct (H T w) as [Heq Hharness].
  rewrite Heq. cbn [flat_map output_of app].
  apply harness_no_output. exact Hharness.
Qed.

Lemma flat_map_nil {A X : Type} (l : list A) :
  flat_map (fun _ : A => @nil X) l = [].
Proof.
  induction l as [|x l IH]; cbn; auto.
Qed.

Lemma bench_all_outputs (Types : list ValueType) (w : World) :
  outputs_of (trace (bench_all' Types) w) = [].
Proof.
  unfold bench_all, outputs_of.
  repeat rewrite trace_bind.
  rewrite !flat_map_app.
  rewrite (bench_types_flat_map output_of _ _
             (shape_no_output _ _ _ fill_back_shape)).
  rewrite (bench_types_flat_map output_of _ _
             (shape_no_output _ _ _ emplace_back_shape)).
  rewrite (bench_types_flat_map output_of _ _
             (shape_no_output _ _ _ fill_front_shape)).
  rewrite (bench_types_flat_map output_of _ _
             (shape_no_output _ _ _ emplace_front_shape)).
  rewrite (bench_types_flat_map output_of _ _
             (shape_no_output _ _ _ linear_search_shape)).
  rewrite (bench_types_flat_map output_of _ _
             (shape_no_output _ _ _ random_insert_shape)).
  rewrite (bench_types_flat_map output_of _ _
             (shape_no_output _ _ _ random_remove_shape)).
  rewrite (bench_types_flat_map output_of _ _
             (shape_no_output _ _ _ sort_shape)).
  rewrite (bench_types_flat_map output_of _ _
             (shape_no_output _ _ _ destruction_shape)).
  rewrite (bench_types_flat_map output_of _ _
             (shape_no_output _ _ _ number_crunching_shape)).
  rewrite !flat_map_nil. reflexivity.
Qed.

(** X19: [main] asks the report sink to render exactly once, as the very
    last thing it does, after every family has run, and returns 0. *)
Theorem main_renders_once_at_the_end (w : World) :
  trace main' w = trace (bench_all' catalog) w ++ [EvOutput]
  /\ outputs_of (trace (bench_all' catalog) w) = []
  /\ outputs_of (trace main' w) = [tt]
  /\ result main' w = 0.
Proof.
  split; [apply main_trace|].
  split; [apply bench_all_outputs|].
  split.
  - rewrite main_trace, outputs_of_app, bench_all_outputs. reflexivity.
  - unfold main. repeat rewrite result_bind. reflexivity.
Qed.

Lemma series_length (tr : list Ev) :
  List.length (series_of tr) = List.length (results_of tr).
Proof.
  unfold series_of, results_of.
  induction tr as [|e tr IH]; cbn [flat_map]; [reflexivity|].
  rewrite !length_app, IH. destruct e; reflexivity.
Qed.

Lemma bench_types_series (Benchmark : ValueType -> Cmd unit)
  (g : ValueType -> list string) :
  (forall T w, series_of (trace (Benchmark T) w) = g T) ->
  forall Types w,
    series_of (trace (bench_types Benchmark Types) w) = flat_map g Types.
Proof.
  intros Hg Types. induction Types as [|T Rest IH]; intros w.
  - reflexivity.
  - cbn [bench_types flat_map].
    rewrite trace_bind, series_of_app, Hg, IH. reflexivity.
Qed.

Lemma bench_all_series_length (w : World) :
  List.length (series_of (trace (bench_all' catalog) w)) = 3220%nat.
Proof.
  unfold bench_all.
  repeat rewrite trace_bind.
  rewrite !series_of_app.
  rewrite (bench_types_series _ _ fill_back_series).
  rewrite (bench_types_series _ _ emplace_back_series).
  rewrite (bench_types_series _ _ fill_front_series).
  rewrite (bench_types_series _ _ emplace_front_series).
  rewrite (bench_types_series _ _ linear_search_series).
  rewrite (bench_types_series _ _ random_insert_series).
  rewrite (bench_types_series _ _ random_remove_series).
  rewrite (bench_types_series _ _ sort_series).
  rewrite (bench_types_series _ _ destruction_series).
  rewrite (bench_types_series _ _ number_crunching_series).
  reflexivity.
Qed.

(** X20: a run of [main] hands the report sink 3220 data points: ten for
    each of the 322 [Bencher::bench] calls of the catalog (39 per value
    type, two more for the one small type, and eight of the
    number-crunching family). *)
Theorem main_reports_3220_points (w : World) :
  List.length (results_of (trace main' w)) = 3220%nat.
Proof.
  rewrite <- series_length, main_trace.
  rewrite series_of_app, length_app, bench_all_series_length.
  reflexivity.
Qed.

(** X21: every graph [main] registers has the tag of its title as key, a
    key as long as its title, and the unit ["us"] or ["ms"]. *)
Theorem main_graph_keys_are_tags (w : World) :
  Forall
    (fun g =>
       fst (fst g) = tag isalnum (snd (fst g))
       /\ String.length (fst (fst g)) = String.length (snd (fst g))
       /\ (snd g = "us" \/ snd g = "ms"))
    (graphs_of (trace main' w)).
Proof.
  assert (Hentry : forall testName T unit_name,
            unit_name = "us" \/ unit_name = "ms" ->
            (fun g =>
               fst (fst g) = tag isalnum (snd (fst g))
               /\ String.length (fst (fst g)) = String.length (snd (fst g))
               /\ (snd g = "us" \/ snd g = "ms"))
              (entry testName T unit_name)).
  { intros testName T unit_name Hu. unfold graph_entry. cbn [fst snd].
    split; [reflexivity|]. split; [|exact Hu].
    unfold tag. apply replace_if_length. }
  rewrite main_trace, graphs_of_app, bench_all_graphs.
  cbn [graphs_of flat_map graph_of]. rewrite app_nil_r.
  repeat (apply Forall_app; split);
    try (apply Forall_forall; intros g Hin;
         apply in_map_iff in Hin; destruct Hin as (T & <- & _);
         apply Hentry; auto).
  repeat constructor; apply Hentry; auto.
Qed.

Ltac family_accumulated :=
  cbv zeta;
  repeat (rewrite trace_bind || rewrite world_after_bind
          || rewrite bench_world);
  rewrite !accumulated_app, !bench_accumulated_from;
  cbn [world_after new_graph emit fst snd clock_reads wrappers_built];
  reflexivity.

Lemma random_insert_accumulated (T : ValueType) (w : World) :
  accumulated (trace (random_insert' T) w)
  = map (fun i => elapsed_at clock microseconds (2 * i + clock_reads w))
      (seq 0 280).
Proof. unfold bench_random_insert. family_accumulated. Qed.

Lemma random_remove_accumulated (T : ValueType) (w : World) :
  accumulated (trace (random_remove' T) w)
  = map (fun i => elapsed_at clock microseconds (2 * i + clock_reads w))
      (seq 0 280).
Proof. unfold bench_random_remove. family_accumulated. Qed.

Lemma sort_accumulated (T : ValueType) (w : World) :
  accumulated (trace (sort' T) w)
  = map (fun i => elapsed_at clock microseconds (2 * i + clock_reads w))
      (seq 0 280).
Proof. unfold bench_sort. family_accumulated. Qed.

Lemma number_crunching_accumulated (T : ValueType) (w : World) :
  accumulated (trace (number_crunching' T) w)
  = map (fun i => elapsed_at clock microseconds (2 * i + clock_reads w))
      (seq 0 280).
Proof. unfold bench_number_crunching. family_accumulated. Qed.

(** X22: the four families whose graph is registered with the unit ["ms"]
    are timed in microseconds all the same: each of the 280 elapsed counts
    of such a family is the time between two clock readings, in
    nanoseconds, divided by 1000 (rounded towards zero). *)
Theorem ms_labelled_families_count_microseconds (T : ValueType)
  (w : World) :
  (graphs_of (trace (random_insert' T) w) = [entry "random_insert" T "ms"]
   /\ accumulated (trace (random_insert' T) w)
      = map
          (fun i =>
             Z.quot
               (clock (S (2 * i + clock_reads w))
                - clock (2 * i + clock_reads w)) 1000)
          (seq 0 280))
  /\ (graphs_of (trace (random_remove' T) w) = [entry "random_remove" T "ms"]
      /\ accumulated (trace (random_remove' T) w)
         = map
             (fun i =>
                Z.quot
                  (clock (S (2 * i + clock_reads w))
                   - clock (2 * i + clock_reads w)) 1000)
             (seq 0 280))
  /\ (graphs_of (trace (sort' T) w) = [entry "sort" T "ms"]
      /\ accumulated (trace (sort' T) w)
         = map
             (fun i =>
                Z.quot
                  (clock (S (2 * i + clock_reads w))
                   - clock (2 * i + clock_reads w)) 1000)
             (seq 0 280))
  /\ (graphs_of (trace (number_crunching' T) w)
      = [entry "number_crunching" T "ms"]
      /\ accumulated (trace (number_crunching' T) w)
         = map
             (fun i =>
                Z.quot
                  (clock (S (2 * i + clock_reads w))
                   - clock (2 * i + clock_reads w)) 1000)
             (seq 0 280)).
Proof.
  rewrite random_insert_accumulated, random_remove_accumulated,
    sort_accumulated, number_crunching_accumulated.
  rewrite bench_random_insert_graphs, bench_random_remove_graphs,
    bench_sort_graphs, bench_number_crunching_graphs.
  repeat split.
Qed.

Lemma scope_run_bench_types (Benchmark : ValueType -> Cmd unit) :
  (forall T w, scope_run idle (trace (Benchmark T) w) = Some idle) ->
  forall Types w,
    scope_run idle (trace (bench_types Benchmark Types) w) = Some idle.
Proof.
  intros HB Types. induction Types as [|T Rest IH]; intros w.
  - reflexivity.
  - cbn [bench_types]. rewrite trace_bind, scope_run_app, HB. apply IH.
Qed.

Lemma scope_run_new_graph (T : ValueType) (testName unit_name : string)
  (w : World) :
  scope_run idle
    (trace
       (new_graph (TestPolicy:=TestName) (CreatePolicy:=CreateName) isalnum
          demangle T testName unit_name) w)
  = Some idle.
Proof. reflexivity. Qed.

Lemma scope_run_ret (w : World) :
  scope_run idle (trace (E:=Ev) (ret tt) w) = Some idle.
Proof. reflexivity. Qed.

Ltac family_scope :=
  cbv zeta;
  repeat rewrite trace_bind;
  repeat (rewrite scope_run_app;
          first [ rewrite scope_run_new_graph | rewrite scope_run_bench
                | rewrite scope_run_ret ];
          cbv beta iota);
  apply scope_run_bench.

Lemma fill_back_scope (T : ValueType) (w : World) :
  scope_run idle (trace (fill_back' T) w) = Some idle.
Proof. unfold bench_fill_back. family_scope. Qed.

Lemma emplace_back_scope (T : ValueType) (w : World) :
  scope_run idle (trace (emplace_back' T) w) = Some idle.
Proof. unfold bench_emplace_back. family_scope. Qed.

Lemma fill_front_scope (T : ValueType) (w : World) :
  scope_run idle (trace (fill_front' T) w) = Some idle.
Proof. unfold bench_fill_front. destruct (is_small T); family_scope. Qed.

Lemma emplace_front_scope (T : ValueType) (w : World) :
  scope_run idle (trace (emplace_front' T) w) = Some idle.
Proof. unfold bench_emplace_front. destruct (is_small T); family_scope. Qed.

Lemma linear_search_scope (T : ValueType) (w : World) :
  scope_run idle (trace (linear_search' T) w) = Some idle.
Proof. unfold bench_linear_search. family_scope. Qed.

Lemma random_insert_scope (T : ValueType) (w : World) :
  scope_run idle (trace (random_insert' T) w) = Some idle.
Proof. unfold bench_random_insert. family_scope. Qed.

Lemma random_remove_scope (T : ValueType) (w : World) :
  scope_run idle (trace (random_remove' T) w) = Some idle.
Proof. unfold bench_random_remove. family_scope. Qed.

Lemma sort_scope (T : ValueType) (w : World) :
  scope_run idle (trace (sort' T) w) = Some idle.
Proof. unfold bench_sort. family_scope. Qed.

Lemma destruction_scope (T : ValueType) (w : World) :
  scope_run idle (trace (destruction' T) w) = Some idle.
Proof. unfold bench_destruction. family_scope. Qed.

Lemma number_crunching_scope (T : ValueType) (w : World) :
  scope_run idle (trace (number_crunching' T) w) = Some idle.
Proof. unfold bench_number_crunching. family_scope. Qed.

(** X23: the whole run of [main], for any list of value types given to
    [bench_all], respects the lifetimes: never two wrappers alive at once,
    no container made from the allocator of a wrapper that is not alive,
    every container destroyed before its wrapper, and every call of the
    report sink (registration, data point, rendering) and of the cleanup
    made while no wrapper is alive. *)
Theorem main_respects_lifetimes (Types : list ValueType) (w : World) :
  scope_run idle (trace (bench_all' Types) w) = Some idle
  /\ scope_run idle (trace main' w) = Some idle.
Proof.
  assert (Hall : forall Ts w',
            scope_run idle (trace (bench_all' Ts) w') = Some idle).
  { intros Ts w'. unfold bench_all.
    repeat rewrite trace_bind.
    rewrite scope_run_app,
      (scope_run_bench_types _ fill_back_scope); cbv beta iota.
    rewrite scope_run_app,
      (scope_run_bench_types _ emplace_back_scope); cbv beta iota.
    rewrite scope_run_app,
      (scope_run_bench_types _ fill_front_scope); cbv beta iota.
    rewrite scope_run_app,
      (scope_run_bench_types _ emplace_front_scope); cbv beta iota.
    rewrite scope_run_app,
      (scope_run_bench_types _ linear_search_scope); cbv beta iota.
    rewrite scope_run_app,
      (scope_run_bench_types _ random_insert_scope); cbv beta iota.
    rewrite scope_run_app,
      (scope_run_bench_types _ random_remove_scope); cbv beta iota.
    rewrite scope_run_app,
      (scope_run_bench_types _ sort_scope); cbv beta iota.
    rewrite scope_run_app,
      (scope_run_bench_types _ destruction_scope); cbv beta iota.
    apply (scope_run_bench_types _ number_crunching_scope). }
  split; [apply Hall|].
  rewrite main_trace, scope_run_app, Hall. reflexivity.
Qed.

End CatalogMore.

(** ** [bench_types] over type lists *)

Section BenchTypesFacts.

Context {TestPolicy CreatePolicy : Type}.

Local Abbreviation Cmd := (M (Event TestPolicy CreatePolicy)).

(** X24: running a benchmark over a concatenation of two type lists is
    running it over the first list and then, from the environment this
    leaves, over the second; over the empty list nothing happens. *)
Theorem bench_types_over_concatenation (Benchmark : ValueType -> Cmd unit)
  (Types1 Types2 : list ValueType) (w : World) :
  trace (bench_types Benchmark (Types1 ++ Types2)) w
  = trace (bench_types Benchmark Types1) w
    ++ trace (bench_types Benchmark Types2)
         (world_after (bench_types Benchmark Types1) w)
  /\ world_after (bench_types Benchmark (Types1 ++ Types2)) w
     = world_after (bench_types Benchmark Types2)
         (world_after (bench_types Benchmark Types1) w)
  /\ trace (bench_types Benchmark []) w = []
  /\ world_after (bench_types Benchmark []) w = w.
Proof.
  split; [|split; [|split; reflexivity]].
  - revert w. induction Types1 as [|T Rest IH]; intros w.
    + reflexivity.
    + cbn [app bench_types].
      rewrite !trace_bind, !world_after_bind, IH. apply app_assoc.
  - revert w. induction Types1 as [|T Rest IH]; intros w.
    + reflexivity.
    + cbn [app bench_types].
      rewrite !world_after_bind, IH. reflexivity.
Qed.

End BenchTypesFacts.

(** ** Objects of the tested types *)

(** X25: [operator<] of [Trivial] is a strict weak ordering on the member
    [a] alone: it is irreflexive, asymmetric and transitive, and two
    objects are unordered exactly when their [a] are equal, whatever
    their padding holds. *)
Theorem Trivial_less_is_strict_weak_order (x y z : TrivialObject.Object) :
  TrivialObject.lt x x = false
  /\ TrivialObject.lt x y && TrivialObject.lt y x = false
  /\ implb (TrivialObject.lt x y && TrivialObject.lt y z)
       (TrivialObject.lt x z)
     = true
  /\ negb (TrivialObject.lt x y) && negb (TrivialObject.lt y x)
     = (TrivialObject.a x =? TrivialObject.a y).
Proof.
  unfold TrivialObject.lt.
  destruct (Z.ltb_spec (TrivialObject.a x) (TrivialObject.a x)),
    (Z.ltb_spec (TrivialObject.a x) (TrivialObject.a y)),
    (Z.ltb_spec (TrivialObject.a y) (TrivialObject.a x)),
    (Z.ltb_spec (TrivialObject.a y) (TrivialObject.a z)),
    (Z.ltb_spec (TrivialObject.a x) (TrivialObject.a z)),
    (Z.eqb_spec (TrivialObject.a x) (TrivialObject.a y));
    cbn; repeat split; try reflexivity; lia.
Qed.

Lemma object_eta (o : NoExceptObject.Object) :
  NoExceptObject.mkObject (NoExceptObject.data o) (NoExceptObject.a o) = o.
Proof. destruct o; reflexivity. Qed.

Lemma move_assign_at (this other : nat) (st : NoExceptObject.Store)
  (q : nat) :
  NoExceptObject.move_assign this other st q
  = if Nat.eqb q other then st this
    else if Nat.eqb q this then st other
    else st q.
Proof.
  unfold NoExceptObject.move_assign, NoExceptObject.swap_a,
    NoExceptObject.swap_data, NoExceptObject.update.
  repeat
    match goal with
    | |- context [Nat.eqb ?n ?m] =>
        destruct (Nat.eqb_spec n m); subst; try contradiction
    end;
    cbn; try apply object_eta; reflexivity.
Qed.

(** X26: the move assignment of [NonTrivialStringMovableNoExcept] exchanges
    its two operands: afterwards the target holds what the source held and
    the source holds what the target held (it is not emptied), every other
    object is untouched, and a self-assignment changes nothing; assigning
    a second time the same way restores every object. *)
Theorem move_assign_exchanges_operands (this other : nat)
  (st : NoExceptObject.Store) (q : nat) :
  NoExceptObject.move_assign this other st q
  = (if Nat.eqb q other then st this
     else if Nat.eqb q this then st other
     else st q)
  /\ NoExceptObject.move_assign this this st q = st q
  /\ NoExceptObject.move_assign this other
       (NoExceptObject.move_assign this other st) q
     = st q.
Proof.
  split; [apply move_assign_at|]. split.
  - rewrite move_assign_at.
    destruct (Nat.eqb_spec q this) as [->|_]; reflexivity.
  - rewrite !move_assign_at, !Nat.eqb_refl.
    destruct (Nat.eqb_spec q other) as [->|Hqo].
    + destruct (Nat.eqb_spec this other) as [->|Hto]; reflexivity.
    + destruct (Nat.eqb_spec q this) as [->|Hqt]; [|reflexivity].
      destruct (Nat.eqb_spec other this) as [->|Hot]; reflexivity.
Qed.
